(** * Password-recovery verification route

    Shallow embedding of [app/routes/_auth+/forgot-password_.verify.tsx]:
    the [verifySchema], the [loader], the [action] and the [validate]
    function they share, together with the parts of zod, conform, prisma
    and the cookie session they call.

    Conventions.
    - An [async] function is a computation in the monad [M]: it reads and
      updates a [World] (the two prisma tables, the clock and a log of the
      calls made to the external collaborators) and either returns or throws.
    - A [FormData] or [URLSearchParams] body is the list of its entries.
    - Strings are sequences of characters; [String.length] counts them. *)

From Stdlib Require Import ZArith Ascii String.
From stdpp Require Import base strings pretty list gmap.

Local Open Scope Z_scope.
Local Open Scope string_scope.
Local Open Scope list_scope.

(** ** Request bodies and conform payloads *)

Definition Body : Type := list (string * string).

(** [URLSearchParams.has] *)
Definition has (params : Body) (name : string) : bool :=
  bool_decide (name ∈ params.*1).

(** A payload entry after conform has grouped the entries by name. *)
Inductive FieldValue : Type :=
  | FString (s : string)
  | FArray (l : list string).

Abbreviation Payload := (gmap string FieldValue).

(** [Object.fromEntries(params)]: a later entry overwrites an earlier one. *)
Definition fromEntries (params : Body) : Payload :=
  foldl (fun acc kv => <[kv.1 := FString kv.2]> acc) ∅ params.

(** ** Outcomes of a call: a value or a thrown error *)

Inductive Outcome (A : Type) : Type :=
  | Returned (a : A)
  | Thrown (msg : string).
Arguments Returned {A} a.
Arguments Thrown {A} msg.

(** ** zod: issues and parse status

    A failed check ([min], [max], a custom issue that is not fatal) marks
    the result dirty; only a type error aborts ([INVALID]). *)

Inductive ZodIssueCode : Type :=
  | invalid_type | too_small | too_big | invalid_string | invalid_union | custom.

Record ZodIssue : Type := mkIssue {
  issue_path : list string;
  issue_code : ZodIssueCode;
  issue_message : string;
}.

Inductive ParseReturn (A : Type) : Type :=
  | OK (v : A)
  | DIRTY (v : A)
  | INVALID.
Arguments OK {A} v.
Arguments DIRTY {A} v.
Arguments INVALID {A}.

Definition Schema (A : Type) : Type :=
  option FieldValue -> ParseReturn A * list ZodIssue.

(** [z.string()] followed by checks; [checks s] lists the issues of the
    checks that [s] fails. *)
Definition zString (checks : string -> list ZodIssue) : Schema string :=
  fun input =>
    match input with
    | Some (FString s) =>
        match checks s with
        | [] => (OK s, [])
        | issues => (DIRTY s, issues)
        end
    | Some (FArray _) =>
        (INVALID, [mkIssue [] invalid_type "Expected string, received array"])
    | None => (INVALID, [mkIssue [] invalid_type "Required"])
    end.

(** [.min(n)] and [.max(n)] on a string. *)
Definition zMin (n : nat) (s : string) : list ZodIssue :=
  if (String.length s <? n)%nat
  then [mkIssue [] too_small
          ("String must contain at least " +:+ pretty n +:+ " character(s)")]
  else [].

Definition zMax (n : nat) (s : string) : list ZodIssue :=
  if (n <? String.length s)%nat
  then [mkIssue [] too_big
          ("String must contain at most " +:+ pretty n +:+ " character(s)")]
  else [].

(** [z.union([a, b])]: the first valid option wins, else the first dirty
    one (with its issues), else the union is invalid. *)
Definition zUnion {A : Type} (a b : Schema A) : Schema A :=
  fun input =>
    let '(ra, ia) := a input in
    let '(rb, ib) := b input in
    match ra, rb with
    | OK v, _ => (OK v, [])
    | _, OK v => (OK v, [])
    | DIRTY v, _ => (DIRTY v, ia)
    | _, DIRTY v => (DIRTY v, ib)
    | INVALID, INVALID => (INVALID, [mkIssue [] invalid_union "Invalid input"])
    end.

(** The issues of the field [name] of an object carry its name in front of
    their path. *)
Definition atKey (name : string) (issues : list ZodIssue) : list ZodIssue :=
  (fun i => mkIssue (name :: issue_path i) (issue_code i) (issue_message i))
    <$> issues.

(** ** conform: reading a body *)

Definition INTENT : string := "__intent__".

(** conform's grouping of repeated names: a second value turns the entry
    into an array; an absent or empty previous value is replaced. *)
Definition setValue (payload : Payload) (name value : string) : Payload :=
  match payload !! name with
  | None | Some (FString "") => <[name := FString value]> payload
  | Some (FString prev) => <[name := FArray [prev; value]]> payload
  | Some (FArray prev) => <[name := FArray (prev ++ [value])%list]> payload
  end.

(** The loop of conform's [parse] over the entries, from the submission
    [{ intent: 'submit', payload: {} }].  Names in conform's path syntax
    ([a.b], [a[0]]) and list intents are outside this model. *)
Fixpoint parseEntries (body : Body) (intent : string) (payload : Payload)
  : Outcome (string * Payload) :=
  match body with
  | [] => Returned (intent, payload)
  | (name, value) :: rest =>
      if String.eqb name INTENT then
        if String.eqb intent "submit"
        then parseEntries rest value payload
        else Thrown "The intent could only be set on a button"
      else parseEntries rest intent (setValue payload name value)
  end.

(** conform's [getName] on a path of keys. *)
Definition getName (path : list string) : string := String.concat "." path.

(** The [error] object of a submission: the messages of the issues, by
    field name, in order ([acceptMultipleErrors] keeps all of them). *)
Definition addError (error : gmap string (list string)) (i : ZodIssue)
  : gmap string (list string) :=
  let name := getName (issue_path i) in
  <[name := (default [] (error !! name) ++ [issue_message i])%list]> error.

Definition formatError (issues : list ZodIssue) : gmap string (list string) :=
  foldl addError ∅ issues.

(** ** The database, the clock and the log of external calls *)

(** A row of prisma's [verification] table, with the columns the route
    reads or filters on. *)
Record Verification : Type := mkVerification {
  type : string;
  verificationTarget : string;
  otp : string;
  algorithm : string;
  secretKey : string;
  validSeconds : Z;
}.

(** The columns picked by [select] in [validate]. *)
Record VerificationSelect : Type := mkVerificationSelect {
  sel_algorithm : string;
  sel_secretKey : string;
  sel_validSeconds : Z;
}.

Record User : Type := mkUser {
  email : string;
  username : string;
}.

Abbreviation Session := (gmap string string).

(** One entry per call that leaves the route, in the order of the calls. *)
Inductive Event : Type :=
  | VerificationFindFirst (type target otp : string)
  | VerifyTOTP (otp key algorithm : string) (validSeconds window : Z)
  | VerificationDeleteMany (type target otp : string) (count : nat)
  | UserFindFirst (usernameOrEmail : string)
  | SessionSet (key value : string)
  | CommitSession (session : Session).

Record World : Type := mkWorld {
  verification : list Verification;
  user : list User;
  now : Z;
  log : list Event;
}.

(** ** The monad of asynchronous calls *)

Definition M (A : Type) : Type := World -> Outcome A * World.

Definition ret {A : Type} (a : A) : M A := fun w => (Returned a, w).

Definition throw {A : Type} (msg : string) : M A := fun w => (Thrown msg, w).

Definition bind {A B : Type} (m : M A) (k : A -> M B) : M B :=
  fun w =>
    match m w with
    | (Returned a, w') => k a w'
    | (Thrown msg, w') => (Thrown msg, w')
    end.

Notation "'let*' x ':=' m 'in' k" := (bind m (fun x => k))
  (at level 10, x pattern, m at level 100, k at level 200).

Definition emit (e : Event) : M unit :=
  fun w => (Returned tt,
            mkWorld (verification w) (user w) (now w) (log w ++ [e])%list).

(** The world after the calls [es] were logged. *)
Definition logged (w : World) (es : list Event) : World :=
  mkWorld (verification w) (user w) (now w) (log w ++ es)%list.

Definition liftOutcome {A : Type} (o : Outcome A) : M A := fun w => (o, w).

(** ** prisma *)

(** The [where] clause shared by [findFirst] and [deleteMany]. *)
Definition verificationWhere (ty target code : string) (v : Verification)
  : bool :=
  String.eqb (type v) ty && String.eqb (verificationTarget v) target
  && String.eqb (otp v) code.

Definition select (v : Verification) : VerificationSelect :=
  mkVerificationSelect (algorithm v) (secretKey v) (validSeconds v).

Definition verification_findFirst (ty target code : string)
  : M (option VerificationSelect) :=
  let* _ := emit (VerificationFindFirst ty target code) in
  fun w =>
    (Returned (select <$> List.find (verificationWhere ty target code)
                            (verification w)), w).

(** [deleteMany] removes every matching row and returns their count. *)
Definition verification_deleteMany (ty target code : string) : M nat :=
  fun w =>
    let hit := verificationWhere ty target code in
    let count := length (List.filter hit (verification w)) in
    (Returned count,
     mkWorld (List.filter (fun v => negb (hit v)) (verification w))
       (user w) (now w)
       (log w ++ [VerificationDeleteMany ty target code count])%list).

(** [where: { OR: [{ email }, { username }] }] *)
Definition userWhere (usernameOrEmail : string) (u : User) : bool :=
  String.eqb (email u) usernameOrEmail
  || String.eqb (username u) usernameOrEmail.

Definition user_findFirst (usernameOrEmail : string) : M (option User) :=
  let* _ := emit (UserFindFirst usernameOrEmail) in
  fun w => (Returned (List.find (userWhere usernameOrEmail) (user w)), w).

(** ** The session *)

(** Modelled from the spec: [getSession] of [~/utils/session.server.ts],
    which is not part of the sources.  A session is the key-value state the
    spec describes, received by each call and returned by it; the [Cookie]
    header of a request is the session it carries, none when the header is
    absent.  Signing and encoding are left out. *)
Definition getSession (cookie : option Session) : Session := default ∅ cookie.

(** [session.set(key, value)] *)
Definition sessionSet (session : Session) (key value : string) : M Session :=
  let* _ := emit (SessionSet key value) in
  ret (<[key := value]> session).

(** Modelled from the spec: [commitSession] of [~/utils/session.server.ts],
    which is not part of the sources.  The [Set-Cookie] header it returns is
    the session that was committed. *)
Definition commitSession (session : Session) : M Session :=
  let* _ := emit (CommitSession session) in
  ret session.

(** ** Requests, submissions and responses *)

Record Request : Type := mkRequest {
  searchParams : Body;
  formData : Body;
  cookie : option Session;
}.

(** The parsed fields of [verifySchema]. *)
Record VerifyData : Type := mkVerifyData {
  usernameOrEmail : string;
  code : string;
}.

Record Submission : Type := mkSubmission {
  intent : string;
  payload : Payload;
  error : gmap string (list string);
  value : option VerifyData;
}.

Inductive Status : Type := idle | error_status.

Inductive Response : Type :=
  | json (status : Status) (submission : Submission) (httpStatus : Z)
  | redirect (url : string) (setCookie : Session).

(** ** The route *)

(** The two field names are imported from [./forgot-password.tsx]; the
    route reads them back as [data.usernameOrEmail] and [data.code]. *)
Definition forgotPasswordVerificationTargetQueryParam : string :=
  "usernameOrEmail".
Definition forgotPasswordOTPQueryParam : string := "code".

(** What the route imports from modules that are not part of the sources. *)
Class Imports : Type := {
  (** Constants of the sibling routes [./forgot-password.tsx] and
      [./reset-password.tsx]. *)
  verificationType : string;
  resetPasswordUsernameSessionKey : string;
  (** The checks of [emailSchema] and [usernameSchema]
      ([~/utils/user-validation.ts]): the issues of the format checks a
      string fails, none when it has the format. *)
  emailChecks : string -> list ZodIssue;
  usernameChecks : string -> list ZodIssue;
  (** [verifyTOTP] of [~/utils/totp.server.ts] at a given time: [Some] of
      the matching step offset, or [None] (the falsy result). *)
  verifyTOTP :
    forall (time : Z) (otp key algorithm : string) (validSeconds window : Z),
      option Z;
}.

Section Route.

Context `{Imports}.

Definition emailSchema : Schema string := zString emailChecks.
Definition usernameSchema : Schema string := zString usernameChecks.

(** [z.object({ usernameOrEmail: z.union([emailSchema, usernameSchema]),
                code: z.string().min(6).max(6) })] *)
Definition verifySchema (payload : Payload)
  : ParseReturn VerifyData * list ZodIssue :=
  let '(target, targetIssues) :=
    zUnion emailSchema usernameSchema
      (payload !! forgotPasswordVerificationTargetQueryParam) in
  let '(otpField, otpIssues) :=
    zString (fun s => zMin 6 s ++ zMax 6 s)%list
      (payload !! forgotPasswordOTPQueryParam) in
  let issues :=
    (atKey forgotPasswordVerificationTargetQueryParam targetIssues
     ++ atKey forgotPasswordOTPQueryParam otpIssues)%list in
  match target, otpField with
  | INVALID, _ | _, INVALID => (INVALID, issues)
  | OK t, OK c => (OK (mkVerifyData t c), issues)
  | OK t, DIRTY c | DIRTY t, OK c | DIRTY t, DIRTY c =>
      (DIRTY (mkVerifyData t c), issues)
  end.

(** The issue both failing branches of the refinement add. *)
Definition invalidCode : ZodIssue :=
  mkIssue [forgotPasswordOTPQueryParam] custom "Invalid code".

Definition callVerifyTOTP (otp key algorithm : string)
    (validSeconds window : Z) : M (option Z) :=
  let* _ := emit (VerifyTOTP otp key algorithm validSeconds window) in
  fun w =>
    (Returned (verifyTOTP (now w) otp key algorithm validSeconds window), w).

(** The callback given to [superRefine]; it returns the issues it adds. *)
Definition refinement (data : VerifyData) : M (list ZodIssue) :=
  let* found :=
    verification_findFirst verificationType (usernameOrEmail data)
      (code data) in
  match found with
  | None => ret [invalidCode]
  | Some v =>
      let* result :=
        callVerifyTOTP (code data) (sel_secretKey v) (sel_algorithm v)
          (sel_validSeconds v) 50 in
      match result with
      | None => ret [invalidCode]
      | Some _ => ret []
      end
  end.

(** [verifySchema.superRefine(...)]: zod skips the refinement when the
    object is [INVALID] and runs it otherwise, also on a dirty object. *)
Definition refinedSchema (payload : Payload)
  : M (ParseReturn VerifyData * list ZodIssue) :=
  let '(inner, issues) := verifySchema payload in
  match inner with
  | INVALID => ret (INVALID, issues)
  | DIRTY data =>
      let* added := refinement data in
      ret (DIRTY data, (issues ++ added)%list)
  | OK data =>
      let* added := refinement data in
      match added with
      | [] => ret (OK data, issues)
      | _ => ret (DIRTY data, (issues ++ added)%list)
      end
  end.

(** conform's [parse(body, { schema, acceptMultipleErrors, async })] *)
Definition parse (body : Body) : M Submission :=
  let* (intent, payload) := liftOutcome (parseEntries body "submit" ∅) in
  let* (result, issues) := refinedSchema payload in
  match result with
  | OK data => ret (mkSubmission intent payload ∅ (Some data))
  | _ => ret (mkSubmission intent payload (formatError issues) None)
  end.

(** [prisma.verification.deleteMany] of [validate]; the count is dropped. *)
Definition consume (value : VerifyData) : M unit :=
  let* _ :=
    verification_deleteMany verificationType (usernameOrEmail value)
      (code value) in
  ret tt.

(** [prisma.user.findFirst] and the [invariant] after it. *)
Definition resolveUser (value : VerifyData) : M User :=
  let* found := user_findFirst (usernameOrEmail value) in
  match found with
  | None => throw "User not found"
  | Some u => ret u
  end.

(** The session and the redirect that end [validate]. *)
Definition handoff (request : Request) (u : User) : M Response :=
  let session := getSession (cookie request) in
  let* session :=
    sessionSet session resetPasswordUsernameSessionKey (username u) in
  let* setCookie := commitSession session in
  ret (redirect "/reset-password" setCookie).

Definition validate (request : Request) (body : Body) : M Response :=
  let* submission := parse body in
  if negb (String.eqb (intent submission) "submit") then
    ret (json idle submission 200)
  else
    match value submission with
    | None => ret (json error_status submission 400)
    | Some value =>
        let* _ := consume value in
        let* u := resolveUser value in
        handoff request u
    end.

Definition loader (request : Request) : M Response :=
  let params := searchParams request in
  if negb (has params forgotPasswordOTPQueryParam) then
    ret (json idle (mkSubmission "" (fromEntries params) ∅ None) 200)
  else validate request params.

Definition action (request : Request) : M Response :=
  validate request (formData request).

(** The world after [deleteMany] at (type, target, code) and the calls
    [es] that ended with it. *)
Definition consumed (w : World) (target otpCode : string)
    (es : list Event) : World :=
  mkWorld
    (List.filter
       (fun v => negb (verificationWhere verificationType target otpCode v))
       (verification w))
    (user w) (now w) (log w ++ es)%list.

(** *** Overlapping requests

    Two requests served by one process interleave at the [await]s of
    [validate].  An [Attempt] is a request between two of them: before
    [parse], before [deleteMany], before [user.findFirst], before the
    session is written, or done. *)

Inductive Attempt : Type :=
  | Pending (request : Request) (body : Body)
  | Consuming (request : Request) (value : VerifyData)
  | Resolving (request : Request) (value : VerifyData)
  | Issuing (request : Request) (u : User)
  | Finished (o : Outcome Response).

Definition step (a : Attempt) (w : World) : Attempt * World :=
  match a with
  | Pending request body =>
      match parse body w with
      | (Thrown msg, w') => (Finished (Thrown msg), w')
      | (Returned submission, w') =>
          if negb (String.eqb (intent submission) "submit") then
            (Finished (Returned (json idle submission 200)), w')
          else
            match value submission with
            | None =>
                (Finished (Returned (json error_status submission 400)), w')
            | Some value => (Consuming request value, w')
            end
      end
  | Consuming request value =>
      match consume value w with
      | (Thrown msg, w') => (Finished (Thrown msg), w')
      | (Returned _, w') => (Resolving request value, w')
      end
  | Resolving request value =>
      match resolveUser value w with
      | (Thrown msg, w') => (Finished (Thrown msg), w')
      | (Returned u, w') => (Issuing request u, w')
      end
  | Issuing request u =>
      let '(o, w') := handoff request u w in (Finished o, w')
  | Finished o => (Finished o, w)
  end.

(** The two ways a well-formed [submit] request ends: the redirect with
    the session for [u], and the 400 with the one error "Invalid code". *)
Definition accepted (request : Request) (u : User) : Response :=
  redirect "/reset-password"
    (<[resetPasswordUsernameSessionKey := username u]>
       (getSession (cookie request))).

Definition rejected (payload : Payload) : Response :=
  json error_status
    (mkSubmission "submit" payload (formatError [invalidCode]) None) 400.

(** The steps a request has left at most. *)
Definition stepsLeft (a : Attempt) : nat :=
  match a with
  | Pending _ _ => 4
  | Consuming _ _ => 3
  | Resolving _ _ => 2
  | Issuing _ _ => 1
  | Finished _ => 0
  end.

(** One request running alone: [n] steps in a row. *)
Fixpoint steps (n : nat) (a : Attempt) (w : World) : Attempt * World :=
  match n with
  | O => (a, w)
  | S n' => let '(a', w') := step a w in steps n' a' w'
  end.

(** Two requests sharing the database; the schedule says whose turn it is. *)
Inductive Turn : Type := First | Second.

Fixpoint interleave (schedule : list Turn) (a b : Attempt) (w : World)
  : Attempt * Attempt * World :=
  match schedule with
  | [] => (a, b, w)
  | First :: rest => let '(a', w') := step a w in interleave rest a' b w'
  | Second :: rest => let '(b', w') := step b w in interleave rest a b' w'
  end.

End Route.

(** The state the spec calls Verified: the request ended with the redirect. *)
Definition verified (a : Attempt) : bool :=
  match a with
  | Finished (Returned (redirect _ _)) => true
  | _ => false
  end.

(** How often a request gets the turn in a schedule. *)
Definition turns (t : Turn) (schedule : list Turn) : nat :=
  length (List.filter
            (fun t' => match t, t' with
                       | First, First | Second, Second => true
                       | _, _ => false
                       end) schedule).

(** ** Reading the log *)

(** The calls a computation makes from [w]: what it appends to the log. *)
Definition trace {A : Type} (m : M A) (w : World) : list Event :=
  drop (length (log w)) (log (m w).2).

Definition isVerifyTOTP (e : Event) : bool :=
  match e with VerifyTOTP _ _ _ _ _ => true | _ => false end.

Definition isDeleteMany (e : Event) : bool :=
  match e with VerificationDeleteMany _ _ _ _ => true | _ => false end.

Definition isSession (e : Event) : bool :=
  match e with SessionSet _ _ | CommitSession _ => true | _ => false end.

(** The number of pending rows for a (type, target, code). *)
Definition pending (ty target code : string) (w : World) : nat :=
  length (List.filter (verificationWhere ty target code) (verification w)).

(** The parsed fields of a result that did not abort. *)
Definition parsedData {A : Type} (r : ParseReturn A) : option A :=
  match r with
  | OK v | DIRTY v => Some v
  | INVALID => None
  end.

(** The input format of the spec: exactly 6 ASCII digits. *)
Definition isDigit (c : ascii) : bool :=
  (48 <=? nat_of_ascii c)%nat && (nat_of_ascii c <=? 57)%nat.

Definition sixDigits (s : string) : bool :=
  (String.length s =? 6)%nat && forallb isDigit (list_ascii_of_string s).

(** ** The verifier of the spec *)

Inductive SpecVerdict : Type :=
  | Matches (b : bool)
  | ConfigurationError
  | UnsupportedAlgorithm.

Section SpecVerifier.

(** The hash functions the verifier supports, and the canonical code of a
    secret and an algorithm at a time step. *)
Variable supported : string -> bool.
Variable generate : string -> string -> Z -> string.

(** Modelled from the spec: [verifyTOTP] of [~/utils/totp.server.ts], which
    is not part of the sources.  A period that is not positive is a
    configuration error and an algorithm outside the supported ones is
    refused; a code that is not 6 digits fails without any code being
    computed; otherwise the submitted code is compared with the code of the
    current step [floor(time / validSeconds)] and of up to [window] steps
    before and after it, [2 * window + 1] codes in all. *)
Definition specVerify (time : Z) (submittedCode secret algorithm : string)
    (validSeconds window : Z) : SpecVerdict :=
  if (validSeconds <=? 0)%Z then ConfigurationError
  else if negb (supported algorithm) then UnsupportedAlgorithm
  else if negb (sixDigits submittedCode) then Matches false
  else
    Matches
      (existsb
         (fun k =>
            String.eqb (generate secret algorithm (time / validSeconds + k))
              submittedCode)
         (seqZ (- window) (2 * window + 1))).

End SpecVerifier.

(** ** The answers of [validate] and the paths to them *)

Definition isUserFindFirst (e : Event) : bool :=
  match e with UserFindFirst _ => true | _ => false end.

(** The two [json] answers of [validate], chosen by the intent. *)
Definition answer (i : string) (submission : Submission) : Response :=
  if negb (String.eqb i "submit") then json idle submission 200
  else json error_status submission 400.

(** The values a URL or a form gives for one name, in order. *)
Definition valuesOf (name : string) (params : Body) : list string :=
  snd <$> List.filter (fun kv => String.eqb kv.1 name) params.

Section Paths.

Context `{Imports}.

(** The eight ways through [validate], each with the outcome and the
    world it leaves: conform throws; the object is [INVALID]; the lookup
    finds nothing; the verifier refuses; the verifier agrees but a field
    failed a check; the intent is not [submit]; the user is gone; the
    redirect. *)
Inductive Run (request : Request) (body : Body) (w : World)
  : Outcome Response -> World -> Prop :=
  | RunThrown msg :
      parseEntries body "submit" ∅ = Thrown msg ->
      Run request body w (Thrown msg) w
  | RunInvalid i payload issues :
      parseEntries body "submit" ∅ = Returned (i, payload) ->
      verifySchema payload = (INVALID, issues) ->
      Run request body w
        (Returned (answer i (mkSubmission i payload (formatError issues)
                               None)))
        w
  | RunMissing i payload r issues data :
      parseEntries body "submit" ∅ = Returned (i, payload) ->
      verifySchema payload = (r, issues) ->
      parsedData r = Some data ->
      List.find (verificationWhere verificationType (usernameOrEmail data)
                   (code data)) (verification w) = None ->
      Run request body w
        (Returned (answer i (mkSubmission i payload
                               (formatError (issues ++ [invalidCode]))
                               None)))
        (logged w [VerificationFindFirst verificationType
                     (usernameOrEmail data) (code data)])
  | RunRefused i payload r issues data v :
      parseEntries body "submit" ∅ = Returned (i, payload) ->
      verifySchema payload = (r, issues) ->
      parsedData r = Some data ->
      List.find (verificationWhere verificationType (usernameOrEmail data)
                   (code data)) (verification w) = Some v ->
      verifyTOTP (now w) (code data) (secretKey v) (algorithm v)
        (validSeconds v) 50 = None ->
      Run request body w
        (Returned (answer i (mkSubmission i payload
                               (formatError (issues ++ [invalidCode]))
                               None)))
        (logged w [VerificationFindFirst verificationType
                     (usernameOrEmail data) (code data);
                   VerifyTOTP (code data) (secretKey v) (algorithm v)
                     (validSeconds v) 50])
  | RunDirty i payload issues data v delta :
      parseEntries body "submit" ∅ = Returned (i, payload) ->
      verifySchema payload = (DIRTY data, issues) ->
      List.find (verificationWhere verificationType (usernameOrEmail data)
                   (code data)) (verification w) = Some v ->
      verifyTOTP (now w) (code data) (secretKey v) (algorithm v)
        (validSeconds v) 50 = Some delta ->
      Run request body w
        (Returned (answer i (mkSubmission i payload (formatError issues)
                               None)))
        (logged w [VerificationFindFirst verificationType
                     (usernameOrEmail data) (code data);
                   VerifyTOTP (code data) (secretKey v) (algorithm v)
                     (validSeconds v) 50])
  | RunIdle i payload issues data v delta :
      parseEntries body "submit" ∅ = Returned (i, payload) ->
      verifySchema payload = (OK data, issues) ->
      List.find (verificationWhere verificationType (usernameOrEmail data)
                   (code data)) (verification w) = Some v ->
      verifyTOTP (now w) (code data) (secretKey v) (algorithm v)
        (validSeconds v) 50 = Some delta ->
      i <> "submit" ->
      Run request body w
        (Returned (json idle (mkSubmission i payload ∅ (Some data)) 200))
        (logged w [VerificationFindFirst verificationType
                     (usernameOrEmail data) (code data);
                   VerifyTOTP (code data) (secretKey v) (algorithm v)
                     (validSeconds v) 50])
  | RunOrphan payload issues data v delta :
      parseEntries body "submit" ∅ = Returned ("submit", payload) ->
      verifySchema payload = (OK data, issues) ->
      List.find (verificationWhere verificationType (usernameOrEmail data)
                   (code data)) (verification w) = Some v ->
      verifyTOTP (now w) (code data) (secretKey v) (algorithm v)
        (validSeconds v) 50 = Some delta ->
      List.find (userWhere (usernameOrEmail data)) (user w) = None ->
      Run request body w (Thrown "User not found")
        (consumed w (usernameOrEmail data) (code data)
           [VerificationFindFirst verificationType (usernameOrEmail data)
              (code data);
            VerifyTOTP (code data) (secretKey v) (algorithm v)
              (validSeconds v) 50;
            VerificationDeleteMany verificationType (usernameOrEmail data)
              (code data)
              (pending verificationType (usernameOrEmail data) (code data) w);
            UserFindFirst (usernameOrEmail data)])
  | RunVerified payload issues data v delta u :
      parseEntries body "submit" ∅ = Returned ("submit", payload) ->
      verifySchema payload = (OK data, issues) ->
      List.find (verificationWhere verificationType (usernameOrEmail data)
                   (code data)) (verification w) = Some v ->
      verifyTOTP (now w) (code data) (secretKey v) (algorithm v)
        (validSeconds v) 50 = Some delta ->
      List.find (userWhere (usernameOrEmail data)) (user w) = Some u ->
      Run request body w (Returned (accepted request u))
        (consumed w (usernameOrEmail data) (code data)
           [VerificationFindFirst verificationType (usernameOrEmail data)
              (code data);
            VerifyTOTP (code data) (secretKey v) (algorithm v)
              (validSeconds v) 50;
            VerificationDeleteMany verificationType (usernameOrEmail data)
              (code data)
              (pending verificationType (usernameOrEmail data) (code data) w);
            UserFindFirst (usernameOrEmail data);
            SessionSet resetPasswordUsernameSessionKey (username u);
            CommitSession
              (<[resetPasswordUsernameSessionKey := username u]>
                 (getSession (cookie request)))]).

(** *** Validation in the browser *)

(** Without [acceptMultipleErrors], conform keeps the first message of
    each field. *)
Definition addFirstError (error : gmap string (list string)) (i : ZodIssue)
  : gmap string (list string) :=
  let name := getName (issue_path i) in
  match error !! name with
  | None => <[name := [issue_message i]]> error
  | Some _ => error
  end.

Definition formatFirstError (issues : list ZodIssue)
  : gmap string (list string) :=
  foldl addFirstError ∅ issues.

(** [onValidate] of the form: [parse(formData, { schema: verifySchema })],
    the schema alone, with no refinement and no call to the server. *)
Definition onValidate (formData : Body) : Outcome Submission :=
  match parseEntries formData "submit" ∅ with
  | Thrown msg => Thrown msg
  | Returned (intent, payload) =>
      let '(result, issues) := verifySchema payload in
      match result with
      | OK data => Returned (mkSubmission intent payload ∅ (Some data))
      | _ => Returned (mkSubmission intent payload (formatFirstError issues)
                         None)
      end
  end.

End Paths.

(** ** A concrete setting for the examples *)

(** A stand-in for the modules that are not part of the sources: an email
    has an [@], a username 3 to 20 characters, and the verifier accepts the
    code that equals the key. *)
Definition sampleEmailChecks (s : string) : list ZodIssue :=
  match index 0 "@" s with
  | Some _ => []
  | None => [mkIssue [] invalid_string "Email is invalid"]
  end.

Definition sampleVerifyTOTP (time : Z) (otp key algorithm : string)
    (validSeconds window : Z) : option Z :=
  if String.eqb otp key then Some 0 else None.

Definition sampleImports : Imports := {|
  verificationType := "forgot-password";
  resetPasswordUsernameSessionKey := "resetPasswordUsername";
  emailChecks := sampleEmailChecks;
  usernameChecks := fun s => (zMin 3 s ++ zMax 20 s)%list;
  verifyTOTP := sampleVerifyTOTP;
|}.

Definition sampleBody (target otpCode : string) : Body :=
  [("usernameOrEmail", target); ("code", otpCode)].

Definition sampleRequest (target otpCode : string) : Request :=
  mkRequest [] (sampleBody target otpCode) None.

Definition kodyEmail : string := "kody@example.com".

Definition kody : User := mkUser kodyEmail "kody".

Definition sampleRecord (otpCode : string) : Verification :=
  mkVerification "forgot-password" "kody@example.com" otpCode "SHA1"
    otpCode 30.

Definition sampleWorld (otpCode : string) : World :=
  mkWorld [sampleRecord otpCode] [kody] 1000 [].

(** The payload conform builds from [sampleBody]. *)
Definition samplePayload (target otpCode : string) : Payload :=
  setValue (setValue ∅ "usernameOrEmail" target) "code" otpCode.

(** A request that already carries a session, as a signed-in browser does. *)
Definition signedInRequest (target otpCode : string) : Request :=
  mkRequest [] (sampleBody target otpCode) (Some {[ "userId" := "u1" ]}).

(** The record is there but its key does not produce the code. *)
Definition staleWorld : World :=
  mkWorld
    [mkVerification "forgot-password" kodyEmail "123456" "SHA1" "654321" 30]
    [kody] 1000 [].

(** No record at all, and a record whose user is gone. *)
Definition emptyWorld : World := mkWorld [] [kody] 1000 [].

Definition orphanWorld : World := mkWorld [sampleRecord "123456"] [] 1000 [].

(** Both requests do their lookup before either deletes. *)
Definition overlapping : list Turn :=
  [First; Second; First; Second; First; Second; First; Second].

(** A stand-in for the code of a step: the steps 83 and 84 have codes of
    their own. *)
Definition sampleGenerate (secret algorithm : string) (step : Z) : string :=
  if (step =? 83)%Z then "483000"
  else if (step =? 84)%Z then "484000"
  else "400000".

(** A link that asks for validation only. *)
Definition validateLink (target otpCode : string) : Request :=
  mkRequest
    [("usernameOrEmail", target); ("code", otpCode);
     ("__intent__", "validate/code")] [] None.


(** * Properties *)

(** ** The log and the tables *)

Lemma logged_nil w : logged w [] = w.
Proof. destruct w; unfold logged; simpl. by rewrite app_nil_r. Qed.

Lemma trace_log {A : Type} (m : M A) w es :
  log (m w).2 = log w ++ es -> trace m w = es.
Proof. intros E. unfold trace. rewrite E. apply drop_app_length. Qed.

Lemma find_some_filter {A : Type} (f : A -> bool) (l : list A) (x : A) :
  List.find f l = Some x -> (0 < length (List.filter f l))%nat.
Proof.
  induction l as [|a l IH]; simpl; [discriminate|].
  destruct (f a); simpl; [lia | exact IH].
Qed.

Lemma filter_none_find {A : Type} (f : A -> bool) (l : list A) :
  List.filter f l = [] -> List.find f l = None.
Proof.
  induction l as [|a l IH]; simpl; [done|].
  destruct (f a); [discriminate | exact IH].
Qed.

Lemma filter_after_delete {A : Type} (f : A -> bool) (l : list A) :
  List.filter f (List.filter (fun x => negb (f x)) l) = [].
Proof.
  induction l as [|a l IH]; simpl; [done|].
  destruct (f a) eqn:E; simpl; [exact IH | by rewrite E].
Qed.

Lemma find_none_not_where (l : list Verification) ty target c :
  (forall v, v ∈ l -> otp v <> c) ->
  List.find (verificationWhere ty target c) l = None.
Proof.
  induction l as [|a l IH]; intros Hl; simpl; [done|].
  assert (verificationWhere ty target c a = false) as ->.
  { unfold verificationWhere.
    destruct (String.eqb_spec (otp a) c) as [E|_].
    - exfalso. apply (Hl a); [left | exact E].
    - by rewrite andb_false_r. }
  apply IH. intros v Hv. apply Hl. by right.
Qed.

Section Facts.

Context `{Imports}.

(** ** What each call of [validate] does to the world *)

Lemma refinement_missing data w :
  List.find (verificationWhere verificationType (usernameOrEmail data)
               (code data)) (verification w) = None ->
  refinement data w =
    (Returned [invalidCode],
     logged w [VerificationFindFirst verificationType
                 (usernameOrEmail data) (code data)]).
Proof.
  intros E. unfold refinement, verification_findFirst, bind, emit, ret.
  simpl. by rewrite E.
Qed.

Lemma refinement_found data w v :
  List.find (verificationWhere verificationType (usernameOrEmail data)
               (code data)) (verification w) = Some v ->
  refinement data w =
    (Returned
       match verifyTOTP (now w) (code data) (secretKey v) (algorithm v)
               (validSeconds v) 50 with
       | Some _ => []
       | None => [invalidCode]
       end,
     logged w [VerificationFindFirst verificationType
                 (usernameOrEmail data) (code data);
               VerifyTOTP (code data) (secretKey v) (algorithm v)
                 (validSeconds v) 50]).
Proof.
  intros E.
  unfold refinement, verification_findFirst, callVerifyTOTP, bind, emit, ret.
  simpl. rewrite E. simpl.
  unfold logged. simpl. rewrite <- app_assoc. simpl.
  by destruct (verifyTOTP _ _ _ _ _ _).
Qed.

(** The refinement only reads: it logs its calls and changes no table. *)
Lemma refinement_reads data w :
  exists added es,
    refinement data w = (Returned added, logged w es)
    /\ List.filter isDeleteMany es = []
    /\ List.filter isSession es = [].
Proof.
  destruct (List.find (verificationWhere verificationType
                         (usernameOrEmail data) (code data))
              (verification w)) as [v|] eqn:E.
  - rewrite (refinement_found _ _ _ E). by eexists _, _.
  - rewrite (refinement_missing _ _ E). by eexists _, _.
Qed.

Lemma parse_reads body w :
  exists o es,
    parse body w = (o, logged w es)
    /\ List.filter isDeleteMany es = []
    /\ List.filter isSession es = [].
Proof.
  unfold parse, bind, liftOutcome.
  destruct (parseEntries body "submit" ∅) as [[i payload]|msg].
  2:{ exists (Thrown msg), []. by rewrite logged_nil. }
  unfold refinedSchema.
  destruct (verifySchema payload) as [[data|data|] issues]; cbv beta iota.
  - unfold bind.
    destruct (refinement_reads data w) as (added & es & -> & ? & ?).
    destruct added; simpl; by eexists _, es.
  - unfold bind.
    destruct (refinement_reads data w) as (added & es & -> & ? & ?).
    simpl. by eexists _, es.
  - eexists _, []. by rewrite logged_nil.
Qed.

(** A parse that is [OK] has no issue. *)
Lemma verifySchema_OK payload data issues :
  verifySchema payload = (OK data, issues) ->
  issues = []
  /\ payload !! forgotPasswordVerificationTargetQueryParam
     = Some (FString (usernameOrEmail data))
  /\ payload !! forgotPasswordOTPQueryParam = Some (FString (code data))
  /\ String.length (code data) = 6%nat.
Proof.
  unfold verifySchema, zUnion, emailSchema, usernameSchema, zString.
  destruct (payload !! forgotPasswordVerificationTargetQueryParam)
    as [[t|?]|]; destruct (payload !! forgotPasswordOTPQueryParam)
    as [[c|?]|]; simpl;
    repeat match goal with
      | |- context [match ?l with [] => _ | _ :: _ => _ end] =>
          destruct l eqn:?; simpl
      end; intros E; inversion E; subst; simpl; try done.
  all: repeat split; try done.
  all: match goal with
       | Hc : (zMin 6 ?c ++ zMax 6 ?c)%list = [] |- _ =>
           unfold zMin, zMax in Hc;
           destruct (Nat.ltb_spec (String.length c) 6);
           destruct (Nat.ltb_spec 6 (String.length c));
           simpl in Hc; try discriminate; lia
       end.
Qed.

Lemma formatError_invalidCode :
  formatError [invalidCode] !! forgotPasswordOTPQueryParam
  = Some ["Invalid code"].
Proof. unfold formatError, addError. simpl. by rewrite lookup_insert_eq. Qed.

Lemma formatError_last issues i :
  exists before,
    formatError (issues ++ [i]) !! getName (issue_path i)
    = Some (before ++ [issue_message i])%list.
Proof.
  unfold formatError. rewrite foldl_app. simpl. unfold addError at 1.
  rewrite lookup_insert_eq. by eexists.
Qed.

Lemma parse_accepts body w i payload data issues v delta :
  parseEntries body "submit" ∅ = Returned (i, payload) ->
  verifySchema payload = (OK data, issues) ->
  List.find (verificationWhere verificationType (usernameOrEmail data)
               (code data)) (verification w) = Some v ->
  verifyTOTP (now w) (code data) (secretKey v) (algorithm v)
    (validSeconds v) 50 = Some delta ->
  parse body w =
    (Returned (mkSubmission i payload ∅ (Some data)),
     logged w [VerificationFindFirst verificationType
                 (usernameOrEmail data) (code data);
               VerifyTOTP (code data) (secretKey v) (algorithm v)
                 (validSeconds v) 50]).
Proof.
  intros Hbody Hschema Hfind Htotp.
  unfold parse, bind, liftOutcome. rewrite Hbody. cbv beta iota.
  unfold refinedSchema. rewrite Hschema. cbv beta iota. unfold bind.
  rewrite (refinement_found _ _ _ Hfind), Htotp. reflexivity.
Qed.

Lemma parse_rejects body w i payload r issues data w' :
  parseEntries body "submit" ∅ = Returned (i, payload) ->
  verifySchema payload = (r, issues) ->
  parsedData r = Some data ->
  refinement data w = (Returned [invalidCode], w') ->
  parse body w =
    (Returned (mkSubmission i payload
                 (formatError (issues ++ [invalidCode])) None), w').
Proof.
  intros Hbody Hschema Hdata Href.
  unfold parse, bind, liftOutcome. rewrite Hbody. cbv beta iota.
  unfold refinedSchema. rewrite Hschema.
  destruct r as [d|d|]; simpl in Hdata; inversion Hdata; subst;
    cbv beta iota; unfold bind; rewrite Href; reflexivity.
Qed.

(** [validate] on a well-formed submission whose code is found and
    passes the verifier. *)
Lemma validate_accepts request body w payload data issues v delta :
  parseEntries body "submit" ∅ = Returned ("submit", payload) ->
  verifySchema payload = (OK data, issues) ->
  List.find (verificationWhere verificationType (usernameOrEmail data)
               (code data)) (verification w) = Some v ->
  verifyTOTP (now w) (code data) (secretKey v) (algorithm v)
    (validSeconds v) 50 = Some delta ->
  let target := usernameOrEmail data in
  let count := pending verificationType target (code data) w in
  let calls :=
    [VerificationFindFirst verificationType target (code data);
     VerifyTOTP (code data) (secretKey v) (algorithm v) (validSeconds v) 50;
     VerificationDeleteMany verificationType target (code data) count;
     UserFindFirst target] in
  validate request body w =
    match List.find (userWhere target) (user w) with
    | None =>
        (Thrown "User not found", consumed w target (code data) calls)
    | Some u =>
        let session :=
          <[resetPasswordUsernameSessionKey := username u]>
            (getSession (cookie request)) in
        (Returned (redirect "/reset-password" session),
         consumed w target (code data)
           (calls ++ [SessionSet resetPasswordUsernameSessionKey
                        (username u);
                      CommitSession session]))
    end.
Proof.
  intros Hbody Hschema Hfind Htotp target count calls.
  unfold validate, bind at 1.
  rewrite (parse_accepts _ _ _ _ _ _ _ _ Hbody Hschema Hfind Htotp).
  cbn [intent value String.eqb Ascii.eqb Bool.eqb negb].
  unfold consume, verification_deleteMany, resolveUser, user_findFirst,
    handoff, sessionSet, commitSession, bind, emit, ret, throw, consumed,
    logged.
  cbn [verification user now log fst snd].
  fold target. fold (pending verificationType target (code data) w).
  fold count.
  destruct (List.find (userWhere target) (user w)) as [u|]; cbv zeta;
    cbn [verification user now log];
    repeat rewrite <- app_assoc; reflexivity.
Qed.

Lemma validate_rejects request body w i payload r issues data w' :
  parseEntries body "submit" ∅ = Returned (i, payload) ->
  verifySchema payload = (r, issues) ->
  parsedData r = Some data ->
  refinement data w = (Returned [invalidCode], w') ->
  let submission :=
    mkSubmission i payload (formatError (issues ++ [invalidCode])) None in
  validate request body w =
    (Returned (if negb (String.eqb i "submit")
               then json idle submission 200
               else json error_status submission 400), w').
Proof.
  intros Hbody Hschema Hdata Href submission.
  unfold validate, bind.
  rewrite (parse_rejects _ _ _ _ _ _ _ _ Hbody Hschema Hdata Href).
  cbn [intent value]. by destruct (negb (String.eqb i "submit")).
Qed.

(** ** Single use *)

(** C1: a submission with intent [submit] that is well formed, matches a
    pending record and passes the verifier has every matching record
    deleted ([pending] is 0 afterwards); the [deleteMany] call is logged
    before the session is written and committed, and whatever the request
    and the time, the same body is rejected with "Invalid code" from then
    on. *)
Theorem consumed_before_success
    request body w payload data issues v delta o w' :
  parseEntries body "submit" ∅ = Returned ("submit", payload) ->
  verifySchema payload = (OK data, issues) ->
  List.find (verificationWhere verificationType (usernameOrEmail data)
               (code data)) (verification w) = Some v ->
  verifyTOTP (now w) (code data) (secretKey v) (algorithm v)
    (validSeconds v) 50 = Some delta ->
  validate request body w = (o, w') ->
  let target := usernameOrEmail data in
  pending verificationType target (code data) w' = 0%nat
  /\ (exists count rest,
        (0 < count)%nat
        /\ trace (validate request body) w =
             [VerificationFindFirst verificationType target (code data);
              VerifyTOTP (code data) (secretKey v) (algorithm v)
                (validSeconds v) 50;
              VerificationDeleteMany verificationType target (code data)
                count;
              UserFindFirst target] ++ rest
        /\ match o with
           | Returned (redirect url session) =>
               exists name,
                 rest = [SessionSet resetPasswordUsernameSessionKey name;
                         CommitSession session]
           | Returned (json _ _ _) => False
           | Thrown _ => rest = []
           end)
  /\ (forall request2 w2,
        verification w2 = verification w' ->
        exists submission w3,
          validate request2 body w2 =
            (Returned (json error_status submission 400), w3)
          /\ value submission = None
          /\ error submission !! forgotPasswordOTPQueryParam
             = Some ["Invalid code"]
          /\ verification w3 = verification w2).
Proof.
  intros Hbody Hschema Hfind Htotp Hrun target.
  pose proof (validate_accepts request _ _ _ _ _ _ _
                Hbody Hschema Hfind Htotp) as Hacc.
  cbv zeta in Hacc. fold target in Hacc.
  assert (pending verificationType target (code data) w' = 0%nat) as Hgone.
  { rewrite Hrun in Hacc.
    destruct (List.find (userWhere target) (user w));
      inversion Hacc; subst; unfold pending, consumed; simpl;
      by rewrite filter_after_delete. }
  split; [exact Hgone|]. split.
  - exists (pending verificationType target (code data) w).
    destruct (List.find (userWhere target) (user w)) as [u|] eqn:Hu.
    + eexists. split; [by apply (find_some_filter _ _ v)|].
      split.
      * apply trace_log. rewrite Hacc. reflexivity.
      * rewrite Hrun in Hacc. inversion Hacc; subst. by eexists.
    + exists []. split; [by apply (find_some_filter _ _ v)|].
      split.
      * apply trace_log. rewrite Hacc. reflexivity.
      * rewrite Hrun in Hacc. by inversion Hacc.
  - intros request2 w2 Hsame.
    destruct (verifySchema_OK _ _ _ Hschema) as (-> & _).
    assert (List.find (verificationWhere verificationType
                         (usernameOrEmail data) (code data))
              (verification w2) = None) as Hnone.
    { apply filter_none_find. rewrite Hsame.
      apply length_zero_iff_nil. exact Hgone. }
    pose proof (validate_rejects request2 body w2 _ _ _ _ _ _
                  Hbody Hschema eq_refl (refinement_missing _ _ Hnone))
      as Hrej.
    cbv zeta in Hrej. cbn [String.eqb Ascii.eqb Bool.eqb negb] in Hrej.
    eexists _, _. split; [exact Hrej|].
    split; [done|]. split; [apply formatError_invalidCode | done].
Qed.

(** ** Rejections *)

(** C3: on a submission that reaches the lookup, the rejection when no
    record matches and the rejection when a record matches and the
    verifier fails are the same: the refinement adds the one issue
    [invalidCode] (path [code], custom, "Invalid code"), and the two
    responses are equal, with no value and "Invalid code" among the errors
    of the [code] field. *)
Theorem rejections_identical
    request body i payload r issues data w1 w2 v :
  parseEntries body "submit" ∅ = Returned (i, payload) ->
  verifySchema payload = (r, issues) ->
  parsedData r = Some data ->
  List.find (verificationWhere verificationType (usernameOrEmail data)
               (code data)) (verification w1) = None ->
  List.find (verificationWhere verificationType (usernameOrEmail data)
               (code data)) (verification w2) = Some v ->
  verifyTOTP (now w2) (code data) (secretKey v) (algorithm v)
    (validSeconds v) 50 = None ->
  (refinement data w1).1 = Returned [invalidCode]
  /\ (refinement data w2).1 = Returned [invalidCode]
  /\ invalidCode = mkIssue ["code"] custom "Invalid code"
  /\ (validate request body w1).1 = (validate request body w2).1
  /\ exists status submission http before,
       (validate request body w1).1 = Returned (json status submission http)
       /\ value submission = None
       /\ error submission !! "code" = Some (before ++ ["Invalid code"]).
Proof.
  intros Hbody Hschema Hdata Hnone Hsome Htotp.
  pose proof (refinement_missing _ _ Hnone) as R1.
  pose proof (refinement_found _ _ _ Hsome) as R2. rewrite Htotp in R2.
  pose proof (validate_rejects request _ _ _ _ _ _ _ _
                Hbody Hschema Hdata R1) as V1.
  pose proof (validate_rejects request _ _ _ _ _ _ _ _
                Hbody Hschema Hdata R2) as V2.
  cbv zeta in V1, V2.
  rewrite R1, R2, V1, V2. repeat split.
  destruct (formatError_last issues invalidCode) as [before Hbefore].
  destruct (negb (String.eqb i "submit")); eexists _, _, _, before;
    (split; [reflexivity | split; [reflexivity | exact Hbefore]]).
Qed.

(** C6: when the submission is accepted and no user has the target as
    email or username, [validate] throws the invariant's error; it
    returns no response, neither a validation failure nor a redirect, and
    writes and commits no session. *)
Theorem missing_user_is_fatal request body w payload data issues v delta :
  parseEntries body "submit" ∅ = Returned ("submit", payload) ->
  verifySchema payload = (OK data, issues) ->
  List.find (verificationWhere verificationType (usernameOrEmail data)
               (code data)) (verification w) = Some v ->
  verifyTOTP (now w) (code data) (secretKey v) (algorithm v)
    (validSeconds v) 50 = Some delta ->
  List.find (userWhere (usernameOrEmail data)) (user w) = None ->
  (validate request body w).1 = Thrown "User not found"
  /\ List.filter isSession (trace (validate request body) w) = [].
Proof.
  intros Hbody Hschema Hfind Htotp Huser.
  pose proof (validate_accepts request _ _ _ _ _ _ _
                Hbody Hschema Hfind Htotp) as Hacc.
  cbv zeta in Hacc. rewrite Huser in Hacc. rewrite Hacc.
  split; [reflexivity|].
  erewrite trace_log; [|rewrite Hacc; reflexivity]. reflexivity.
Qed.

(** C9: on success the session holds, under the reset-password key, the
    [username] column of the user that [findFirst] returned for the
    target, a user whose email or username is the target. *)
Theorem session_holds_resolved_username
    request body w payload data issues v delta u :
  parseEntries body "submit" ∅ = Returned ("submit", payload) ->
  verifySchema payload = (OK data, issues) ->
  List.find (verificationWhere verificationType (usernameOrEmail data)
               (code data)) (verification w) = Some v ->
  verifyTOTP (now w) (code data) (secretKey v) (algorithm v)
    (validSeconds v) 50 = Some delta ->
  List.find (userWhere (usernameOrEmail data)) (user w) = Some u ->
  (email u = usernameOrEmail data \/ username u = usernameOrEmail data)
  /\ exists session,
       (validate request body w).1
       = Returned (redirect "/reset-password" session)
       /\ session !! resetPasswordUsernameSessionKey = Some (username u).
Proof.
  intros Hbody Hschema Hfind Htotp Huser.
  pose proof (validate_accepts request _ _ _ _ _ _ _
                Hbody Hschema Hfind Htotp) as Hacc.
  cbv zeta in Hacc. rewrite Huser in Hacc. rewrite Hacc. split.
  - apply find_some in Huser as [_ Hu]. unfold userWhere in Hu.
    apply orb_prop in Hu as [Hu|Hu]; apply String.eqb_eq in Hu; auto.
  - eexists. split; [reflexivity | apply lookup_insert_eq].
Qed.

(** C10: when the URL has no [code] parameter the loader answers idle
    with an empty intent, the parameters as payload and no error; the
    world is untouched, so no lookup was made and no code was checked. *)
Theorem loader_without_otp request w :
  has (searchParams request) forgotPasswordOTPQueryParam = false ->
  loader request w =
    (Returned (json idle
                 (mkSubmission "" (fromEntries (searchParams request))
                    ∅ None) 200), w)
  /\ trace (loader request) w = [].
Proof.
  intros Hhas. unfold trace, loader. rewrite Hhas. simpl.
  split; [reflexivity | apply drop_all].
Qed.

(** ** The verifier's arguments *)

Lemma parse_found_log body w i payload r issues data v :
  parseEntries body "submit" ∅ = Returned (i, payload) ->
  verifySchema payload = (r, issues) ->
  parsedData r = Some data ->
  List.find (verificationWhere verificationType (usernameOrEmail data)
               (code data)) (verification w) = Some v ->
  log (parse body w).2 =
    log w ++ [VerificationFindFirst verificationType
                (usernameOrEmail data) (code data);
              VerifyTOTP (code data) (secretKey v) (algorithm v)
                (validSeconds v) 50].
Proof.
  intros Hbody Hschema Hdata Hfind.
  unfold parse, bind, liftOutcome. rewrite Hbody. cbv beta iota.
  unfold refinedSchema. rewrite Hschema.
  destruct r as [d|d|]; simpl in Hdata; inversion Hdata; subst;
    cbv beta iota; unfold bind; rewrite (refinement_found _ _ _ Hfind);
    by destruct (verifyTOTP _ _ _ _ _ _).
Qed.

(** After [parse], [validate] never calls the verifier. *)
Lemma validate_tail request body w :
  exists es,
    log (validate request body w).2 = log (parse body w).2 ++ es
    /\ List.filter isVerifyTOTP es = [].
Proof.
  unfold validate, bind at 1.
  destruct (parse body w) as [[submission|msg] w1].
  2:{ exists []. by rewrite app_nil_r. }
  destruct (negb (String.eqb (intent submission) "submit")).
  { exists []. by rewrite app_nil_r. }
  destruct (value submission) as [data|].
  2:{ exists []. by rewrite app_nil_r. }
  unfold consume, verification_deleteMany, resolveUser, user_findFirst,
    handoff, sessionSet, commitSession, bind, emit, ret, throw.
  cbn [verification user now log fst snd].
  destruct (List.find _ (user w1)) as [u|]; cbn [log snd];
    repeat rewrite <- app_assoc; by eexists.
Qed.

(** The verifier of the spec accepts exactly the codes of the steps at
    most [window] steps away from the current one. *)
Lemma specVerify_window supported generate time c key alg period window :
  0 < period ->
  supported alg = true ->
  sixDigits c = true ->
  specVerify supported generate time c key alg period window = Matches true
  <-> exists k, - window <= k <= window
                /\ generate key alg (time / period + k) = c.
Proof.
  intros Hperiod Halg Hdigits. unfold specVerify.
  destruct (Z.leb_spec period 0); [lia|]. rewrite Halg, Hdigits. simpl.
  split.
  - intros E. inversion E as [Hex].
    apply existsb_exists in Hex as (k & Hin & Hk).
    apply list_elem_of_In, elem_of_seqZ in Hin. apply String.eqb_eq in Hk.
    exists k. split; [lia | exact Hk].
  - intros (k & Hk & Hcode). f_equal. apply existsb_exists. exists k.
    split; [|by apply String.eqb_eq].
    apply list_elem_of_In, elem_of_seqZ. lia.
Qed.

(** C4: whenever the lookup finds a record, [validate] calls the verifier
    once, with the submitted code, the [secretKey], [algorithm] and
    [validSeconds] of that record and the window 50, and the answer of the
    verifier on these arguments decides the attempt: the refinement adds
    "Invalid code" exactly when it is [None], and the submission has a value
    exactly when the object was accepted and it is [Some].  The window is a
    number of steps: with a verifier that follows the spec the attempt passes
    exactly for the code of a step at most 50 steps from the current step
    [floor(now / validSeconds)], whatever the length of a step in seconds. *)
Theorem verifier_called_with_record
    request body w i payload r issues data v :
  parseEntries body "submit" ∅ = Returned (i, payload) ->
  verifySchema payload = (r, issues) ->
  parsedData r = Some data ->
  List.find (verificationWhere verificationType (usernameOrEmail data)
               (code data)) (verification w) = Some v ->
  List.filter isVerifyTOTP (trace (validate request body) w)
  = [VerifyTOTP (code data) (secretKey v) (algorithm v) (validSeconds v) 50]
  /\ (refinement data w).1
     = Returned
         match verifyTOTP (now w) (code data) (secretKey v) (algorithm v)
                 (validSeconds v) 50 with
         | Some _ => []
         | None => [invalidCode]
         end
  /\ (exists submission,
        (parse body w).1 = Returned submission
        /\ (is_Some (value submission) <->
            r = OK data
            /\ is_Some (verifyTOTP (now w) (code data) (secretKey v)
                          (algorithm v) (validSeconds v) 50)))
  /\ (forall supported generate,
        (forall time c key alg period window,
           0 < period ->
           supported alg = true ->
           is_Some (verifyTOTP time c key alg period window) <->
           specVerify supported generate time c key alg period window
           = Matches true) ->
        0 < validSeconds v ->
        supported (algorithm v) = true ->
        sixDigits (code data) = true ->
        (refinement data w).1 = Returned [] <->
        exists k, -50 <= k <= 50
                  /\ generate (secretKey v) (algorithm v)
                       (now w / validSeconds v + k) = code data).
Proof.
  intros Hbody Hschema Hdata Hfind.
  pose proof (refinement_found _ _ _ Hfind) as Href.
  split; [|split; [|split]].
  - destruct (validate_tail request body w) as (es & Hlog & Hes).
    rewrite (parse_found_log _ _ _ _ _ _ _ _ Hbody Hschema Hdata Hfind)
      in Hlog.
    rewrite <- app_assoc in Hlog.
    rewrite (trace_log _ _ _ Hlog), List.filter_app, Hes. reflexivity.
  - by rewrite Href.
  - unfold parse, bind, liftOutcome. rewrite Hbody. cbv beta iota.
    unfold refinedSchema. rewrite Hschema.
    destruct r as [d|d|]; simpl in Hdata; inversion Hdata; subst d;
      cbv beta iota; unfold bind; rewrite Href;
      destruct (verifyTOTP (now w) (code data) (secretKey v) (algorithm v)
                  (validSeconds v) 50) as [delta|];
      eexists; (split; [reflexivity|]); simpl;
      split; try (by intros [? ?]); try (by intros [? [? ?]]);
      try (by intros [? ?]; eauto); eauto.
  - intros supported generate Hspec Hperiod Halg Hdigits.
    rewrite <- (specVerify_window supported generate _ _ _ _ _ 50
                  Hperiod Halg Hdigits).
    rewrite <- (Hspec _ _ _ _ _ _ Hperiod Halg). rewrite Href. simpl.
    destruct (verifyTOTP (now w) (code data) (secretKey v) (algorithm v)
                (validSeconds v) 50) as [delta|].
    + split; [by eauto | done].
    + split; [discriminate | by intros [? ?]].
Qed.

(** ** Submissions that are not submitted *)

(** C8: when the intent of the parsed submission is not [submit],
    [validate] answers idle with that submission; both tables are as
    before, and no [deleteMany] and no session call was made, whatever the
    lookup and the verifier said. *)
Theorem non_submit_never_consumes request body w submission w1 :
  parse body w = (Returned submission, w1) ->
  intent submission <> "submit" ->
  validate request body w = (Returned (json idle submission 200), w1)
  /\ verification w1 = verification w
  /\ user w1 = user w
  /\ List.filter isDeleteMany (trace (validate request body) w) = []
  /\ List.filter isSession (trace (validate request body) w) = [].
Proof.
  intros Hparse Hintent.
  assert (validate request body w = (Returned (json idle submission 200), w1))
    as Hrun.
  { unfold validate, bind. rewrite Hparse.
    destruct (String.eqb_spec (intent submission) "submit"); done. }
  destruct (parse_reads body w) as (o & es & Hreads & Hdel & Hses).
  rewrite Hparse in Hreads. inversion Hreads; subst.
  split; [exact Hrun|]. split; [reflexivity|]. split; [reflexivity|].
  rewrite (trace_log _ _ es); [done | by rewrite Hrun].
Qed.

(** ** Codes of the wrong length *)

Lemma formatError_elem issues i :
  i ∈ issues ->
  exists msgs,
    formatError issues !! getName (issue_path i) = Some msgs
    /\ issue_message i ∈ msgs.
Proof.
  unfold formatError.
  induction issues as [|x issues IH] using rev_ind; intros Hin.
  { by apply elem_of_nil in Hin. }
  rewrite foldl_app. simpl. unfold addError at 1.
  apply elem_of_app in Hin as [Hin|Hin].
  - destruct (IH Hin) as (msgs & Hmsgs & Hmsg).
    destruct (decide (getName (issue_path x) = getName (issue_path i)))
      as [E|E].
    + rewrite E, lookup_insert_eq, Hmsgs. eexists. split; [done|].
      apply elem_of_app. by left.
    + rewrite lookup_insert_ne by done. by exists msgs.
  - apply list_elem_of_singleton in Hin as ->.
    rewrite lookup_insert_eq. eexists. split; [done|].
    apply elem_of_app. right. by apply list_elem_of_singleton.
Qed.

Lemma length_checks c :
  String.length c <> 6%nat ->
  exists cd msg, zMin 6 c ++ zMax 6 c = [mkIssue [] cd msg].
Proof.
  intros Hlen. unfold zMin, zMax.
  destruct (Nat.ltb_spec (String.length c) 6);
    destruct (Nat.ltb_spec 6 (String.length c)); try lia;
    by eexists _, _.
Qed.

Lemma verifySchema_wrong_length payload c :
  payload !! forgotPasswordOTPQueryParam = Some (FString c) ->
  String.length c <> 6%nat ->
  exists r issues i,
    verifySchema payload = (r, issues)
    /\ (r = INVALID \/ exists t, r = DIRTY (mkVerifyData t c))
    /\ i ∈ issues
    /\ issue_path i = [forgotPasswordOTPQueryParam].
Proof.
  intros Hcode Hlen. unfold verifySchema. rewrite Hcode.
  destruct (zUnion emailSchema usernameSchema _) as [rt it].
  unfold zString.
  destruct (length_checks c Hlen) as (cd & msg & ->).
  exists (match rt with
          | INVALID => INVALID
          | OK t | DIRTY t => DIRTY (mkVerifyData t c)
          end), (atKey forgotPasswordVerificationTargetQueryParam it
                 ++ atKey forgotPasswordOTPQueryParam [mkIssue [] cd msg]),
    (mkIssue [forgotPasswordOTPQueryParam] cd msg).
  split; [by destruct rt|]. split; [destruct rt; eauto|].
  split; [|done]. apply elem_of_app. right. simpl.
  by apply list_elem_of_singleton.
Qed.

(** C5, as the code has it: a submitted code whose length is not 6 is
    rejected with status 400, no value and an error on the [code] field;
    no record is deleted, no session is written, and the verifier is not
    called as long as no pending record carries that very code. *)
Theorem wrong_length_rejected request body w payload c :
  parseEntries body "submit" ∅ = Returned ("submit", payload) ->
  payload !! forgotPasswordOTPQueryParam = Some (FString c) ->
  String.length c <> 6%nat ->
  exists submission w',
    validate request body w
    = (Returned (json error_status submission 400), w')
    /\ value submission = None
    /\ (exists msgs,
          error submission !! forgotPasswordOTPQueryParam = Some msgs
          /\ msgs <> [])
    /\ verification w' = verification w
    /\ user w' = user w
    /\ List.filter isDeleteMany (trace (validate request body) w) = []
    /\ List.filter isSession (trace (validate request body) w) = []
    /\ ((forall v, v ∈ verification w -> otp v <> c) ->
        List.filter isVerifyTOTP (trace (validate request body) w) = []).
Proof.
  intros Hbody Hcode Hlen.
  destruct (verifySchema_wrong_length _ _ Hcode Hlen)
    as (r & issues & i & Hschema & Hr & Hin & Hpath).
  assert (forall more, exists msgs,
            formatError (issues ++ more) !! forgotPasswordOTPQueryParam
            = Some msgs /\ msgs <> []) as Herr.
  { intros more.
    destruct (formatError_elem (issues ++ more) i) as (msgs & Hm & Hi).
    { apply elem_of_app. by left. }
    rewrite Hpath in Hm. exists msgs. split; [exact Hm|].
    intros ->. by apply elem_of_nil in Hi. }
  assert (exists more es,
            validate request body w
            = (Returned (json error_status
                           (mkSubmission "submit" payload
                              (formatError (issues ++ more)) None) 400),
               logged w es)
            /\ List.filter isDeleteMany es = []
            /\ List.filter isSession es = []
            /\ ((forall v, v ∈ verification w -> otp v <> c) ->
                List.filter isVerifyTOTP es = []))
    as (more & es & Hrun & Hdel & Hses & Hver).
  { unfold validate, parse, bind, liftOutcome. rewrite Hbody.
    cbv beta iota. unfold refinedSchema. rewrite Hschema.
    destruct Hr as [->|[t ->]]; cbv beta iota.
    - exists [], []. rewrite logged_nil, app_nil_r. by unfold ret.
    - unfold bind.
      destruct (refinement_reads (mkVerifyData t c) w)
        as (added & es & Href & Hdel & Hses).
      rewrite Href. exists added, es.
      split; [reflexivity|]. split; [exact Hdel|]. split; [exact Hses|].
      intros Hnone.
      rewrite (refinement_missing (mkVerifyData t c) w) in Href
        by (by apply find_none_not_where).
      inversion Href as [[Ha Hw]]. apply app_inv_head in Hw. by subst es. }
  eexists _, _. split; [exact Hrun|]. split; [reflexivity|].
  split; [apply Herr|]. split; [reflexivity|]. split; [reflexivity|].
  rewrite (trace_log _ _ es) by (by rewrite Hrun). auto.
Qed.

(** ** The handoff session *)

(** C7, as the code has it: on success the session in the response is
    the session of the request with one key written, the reset-password
    key holding the resolved username.  Every other key is as the request
    had it, the only session calls are that write and the commit, and a
    request without a session gets a session with that single field. *)
Theorem handoff_writes_username_only
    request body w payload data issues v delta url session w' :
  parseEntries body "submit" ∅ = Returned ("submit", payload) ->
  verifySchema payload = (OK data, issues) ->
  List.find (verificationWhere verificationType (usernameOrEmail data)
               (code data)) (verification w) = Some v ->
  verifyTOTP (now w) (code data) (secretKey v) (algorithm v)
    (validSeconds v) 50 = Some delta ->
  validate request body w = (Returned (redirect url session), w') ->
  exists u,
    List.find (userWhere (usernameOrEmail data)) (user w) = Some u
    /\ session = <[resetPasswordUsernameSessionKey := username u]>
                   (getSession (cookie request))
    /\ List.filter isSession (trace (validate request body) w)
       = [SessionSet resetPasswordUsernameSessionKey (username u);
          CommitSession session]
    /\ (forall k, k <> resetPasswordUsernameSessionKey ->
        session !! k = getSession (cookie request) !! k)
    /\ (cookie request = None ->
        session = {[ resetPasswordUsernameSessionKey := username u ]}).
Proof.
  intros Hbody Hschema Hfind Htotp Hrun.
  pose proof (validate_accepts request _ _ _ _ _ _ _
                Hbody Hschema Hfind Htotp) as Hacc.
  cbv zeta in Hacc.
  destruct (List.find (userWhere (usernameOrEmail data)) (user w))
    as [u|]; rewrite Hrun in Hacc; [|discriminate].
  inversion Hacc as [[Hurl Hsession Hw]]. exists u.
  split; [reflexivity|]. split; [reflexivity|]. split.
  - rewrite <- Hsession.
    erewrite trace_log; [|rewrite Hrun, Hw; reflexivity].
    simpl. by rewrite Hsession.
  - split.
    + intros k Hk. by rewrite lookup_insert_ne.
    + intros Hcookie. rewrite Hcookie. simpl. apply insert_empty.
Qed.

(** ** Two requests with the same code *)

Lemma steps_validate request body w :
  steps 4 (Pending request body) w
  = (Finished (validate request body w).1, (validate request body w).2).
Proof.
  unfold validate, bind. cbn [steps step].
  destruct (parse body w) as [[submission|msg] w1]; [|reflexivity].
  destruct (negb (String.eqb (intent submission) "submit")); [reflexivity|].
  destruct (value submission) as [data|]; [|reflexivity].
  cbn [steps step].
  destruct (consume data w1) as [[[]|msg] w2]; cbn [steps step];
    [|reflexivity].
  destruct (resolveUser data w2) as [[u|msg] w3]; cbn [steps step];
    [|reflexivity].
  by destruct (handoff request u w3).
Qed.

Section TwoRequests.

Variables (request1 request2 : Request) (body : Body).
Variables (payload : Payload) (data : VerifyData) (u : User).
Variable issues : list ZodIssue.

Hypothesis Hbody :
  parseEntries body "submit" ∅ = Returned ("submit", payload).
Hypothesis Hschema : verifySchema payload = (OK data, issues).

(** Once no record is pending, the lookup of the second request fails. *)
Lemma step_replay w :
  pending verificationType (usernameOrEmail data) (code data) w = 0%nat ->
  step (Pending request2 body) w
  = (Finished (Returned (rejected payload)),
     logged w [VerificationFindFirst verificationType
                 (usernameOrEmail data) (code data)]).
Proof.
  intros Hgone.
  assert (List.find (verificationWhere verificationType
                       (usernameOrEmail data) (code data))
            (verification w) = None) as Hnone.
  { apply filter_none_find, length_zero_iff_nil, Hgone. }
  destruct (verifySchema_OK _ _ _ Hschema) as (Hissues & _).
  unfold step.
  rewrite (parse_rejects _ _ _ _ _ _ _ _ Hbody Hschema eq_refl
             (refinement_missing _ _ Hnone)).
  rewrite Hissues. reflexivity.
Qed.

(** From the point where the first request has deleted the record:
    whatever the schedule, the first request can only go on to the
    redirect and the second can only be rejected. *)
Lemma after_consumption rest :
  forall a b w,
    pending verificationType (usernameOrEmail data) (code data) w = 0%nat ->
    List.find (userWhere (usernameOrEmail data)) (user w) = Some u ->
    a = Resolving request1 data \/ a = Issuing request1 u
    \/ a = Finished (Returned (accepted request1 u)) ->
    b = Pending request2 body
    \/ b = Finished (Returned (rejected payload)) ->
    exists a' b' w',
      interleave rest a b w = (a', b', w')
      /\ pending verificationType (usernameOrEmail data) (code data) w'
         = 0%nat
      /\ (a' = Resolving request1 data \/ a' = Issuing request1 u
          \/ a' = Finished (Returned (accepted request1 u)))
      /\ (b' = Pending request2 body
          \/ b' = Finished (Returned (rejected payload)))
      /\ ((stepsLeft a <= turns First rest)%nat ->
          a' = Finished (Returned (accepted request1 u)))
      /\ ((1 <= turns Second rest)%nat
          \/ b = Finished (Returned (rejected payload)) ->
          b' = Finished (Returned (rejected payload))).
Proof.
  induction rest as [|t rest IH]; intros a b w Hgone Huser Ha Hb.
  { exists a, b, w. split; [reflexivity|]. split; [exact Hgone|].
    split; [exact Ha|]. split; [exact Hb|]. split.
    - intros Hle. unfold turns in Hle.
      destruct Ha as [-> | [-> | ->]]; simpl in Hle; try lia; reflexivity.
    - intros [Hle | ->]; [unfold turns in Hle; simpl in Hle; lia | done]. }
  destruct t.
  - assert (exists a1 es,
              step a w = (a1, logged w es)
              /\ (a1 = Resolving request1 data \/ a1 = Issuing request1 u
                  \/ a1 = Finished (Returned (accepted request1 u)))
              /\ (stepsLeft a1 <= pred (stepsLeft a))%nat)
      as (a1 & es & Hstep & Ha1 & Hleft).
    { destruct Ha as [-> | [-> | ->]].
      - exists (Issuing request1 u), [UserFindFirst (usernameOrEmail data)].
        unfold step, resolveUser, user_findFirst, bind, emit, ret.
        simpl. rewrite Huser. auto.
      - exists (Finished (Returned (accepted request1 u))),
          [SessionSet resetPasswordUsernameSessionKey (username u);
           CommitSession
             (<[resetPasswordUsernameSessionKey := username u]>
                (getSession (cookie request1)))].
        unfold step, handoff, sessionSet, commitSession, bind, emit, ret,
          accepted, logged.
        simpl. rewrite <- app_assoc. auto.
      - exists (Finished (Returned (accepted request1 u))), [].
        rewrite logged_nil. simpl. auto. }
    destruct (IH a1 b (logged w es) Hgone Huser Ha1 Hb)
      as (a' & b' & w' & Hrun & Hgone' & Ha' & Hb' & Hfin & Hrej).
    exists a', b', w'. simpl. rewrite Hstep.
    split; [exact Hrun|]. split; [exact Hgone'|].
    split; [exact Ha'|]. split; [exact Hb'|]. split.
    + intros Hle. apply Hfin.
      change (turns First (First :: rest)) with (S (turns First rest))
        in Hle.
      lia.
    + exact Hrej.
  - assert (exists es,
              step b w = (Finished (Returned (rejected payload)),
                          logged w es)) as (es & Hstep).
    { destruct Hb as [->| ->].
      - eexists. by apply step_replay.
      - exists []. by rewrite logged_nil. }
    destruct (IH a (Finished (Returned (rejected payload))) (logged w es)
                Hgone Huser Ha (or_intror eq_refl))
      as (a' & b' & w' & Hrun & Hgone' & Ha' & Hb' & Hfin & Hrej).
    exists a', b', w'. simpl. rewrite Hstep.
    split; [exact Hrun|]. split; [exact Hgone'|].
    split; [exact Ha'|]. split; [exact Hb'|]. split.
    + exact Hfin.
    + intros _. apply Hrej. by right.
Qed.

End TwoRequests.

(** C2, as the code has it: when the first of two requests with the same
    valid code has done its lookup and its [deleteMany] before the second
    one starts its lookup, then whatever the schedule from there on, the
    second request never reaches the redirect; given two more turns the
    first request ends with the redirect, and given one turn the second
    ends rejected with "Invalid code". *)
Theorem one_winner_after_consumption
    request1 request2 body w payload data issues v delta u rest :
  parseEntries body "submit" ∅ = Returned ("submit", payload) ->
  verifySchema payload = (OK data, issues) ->
  List.find (verificationWhere verificationType (usernameOrEmail data)
               (code data)) (verification w) = Some v ->
  verifyTOTP (now w) (code data) (secretKey v) (algorithm v)
    (validSeconds v) 50 = Some delta ->
  List.find (userWhere (usernameOrEmail data)) (user w) = Some u ->
  exists a b w',
    interleave (First :: First :: rest)
      (Pending request1 body) (Pending request2 body) w = (a, b, w')
    /\ verified b = false
    /\ ((2 <= turns First rest)%nat -> verified a = true)
    /\ ((1 <= turns Second rest)%nat ->
        exists submission,
          b = Finished (Returned (json error_status submission 400))
          /\ value submission = None
          /\ error submission !! forgotPasswordOTPQueryParam
             = Some ["Invalid code"])
    /\ pending verificationType (usernameOrEmail data) (code data) w'
       = 0%nat.
Proof.
  intros Hbody Hschema Hfind Htotp Huser.
  cbn [interleave]. unfold step at 1.
  rewrite (parse_accepts _ _ _ _ _ _ _ _ Hbody Hschema Hfind Htotp).
  cbn [intent value String.eqb Ascii.eqb Bool.eqb negb].
  unfold step at 1, consume, verification_deleteMany, bind, ret.
  cbn [verification user now log logged].
  match goal with
  | |- context [interleave rest _ _ ?w1] =>
      destruct (after_consumption request1 request2 body payload data u
                  issues Hbody Hschema rest
                  (Resolving request1 data) (Pending request2 body) w1)
        as (a & b & w' & Hrun & Hgone & Ha & Hb & Hfin & Hrej)
  end.
  { unfold pending. simpl. by rewrite filter_after_delete. }
  { exact Huser. }
  { by left. }
  { by left. }
  exists a, b, w'. split; [exact Hrun|]. split.
  { by destruct Hb as [->| ->]. }
  split.
  { intros Hle. by rewrite (Hfin Hle). }
  split; [|exact Hgone].
  intros Hle. rewrite (Hrej (or_introl Hle)). eexists.
  split; [reflexivity|]. split; [reflexivity|].
  apply formatError_invalidCode.
Qed.

End Facts.


(** * The sample setting *)

Lemma consumed_before_success_witness :
  pending "forgot-password" kodyEmail "123456"
    (@action sampleImports (sampleRequest kodyEmail "123456")
       (sampleWorld "123456")).2 = 0%nat.
Proof.
  refine (proj1 (@consumed_before_success sampleImports
                   (sampleRequest kodyEmail "123456")
                   (sampleBody kodyEmail "123456") (sampleWorld "123456")
                   (samplePayload kodyEmail "123456")
                   (mkVerifyData kodyEmail "123456") []
                   (sampleRecord "123456") 0 _ _
                   _ _ _ _ (surjective_pairing _)));
    reflexivity.
Defined.

(** C2 fails on the code: with the lookups of both requests scheduled
    before the first [deleteMany], both requests end with the redirect; the
    second [deleteMany] removes 0 records and nothing looks at that count. *)
Lemma both_requests_verified :
  let '(a, b, w') :=
    @interleave sampleImports overlapping
      (Pending (sampleRequest kodyEmail "123456")
         (sampleBody kodyEmail "123456"))
      (Pending (sampleRequest kodyEmail "123456")
         (sampleBody kodyEmail "123456"))
      (sampleWorld "123456") in
  verified a = true /\ verified b = true
  /\ List.filter isDeleteMany (log w')
     = [VerificationDeleteMany "forgot-password" kodyEmail "123456" 1;
        VerificationDeleteMany "forgot-password" kodyEmail "123456" 0].
Proof. vm_compute. repeat split. Qed.

Lemma one_winner_after_consumption_witness :
  let '(a, b, _) :=
    @interleave sampleImports [First; First; First; First; Second]
      (Pending (sampleRequest kodyEmail "123456")
         (sampleBody kodyEmail "123456"))
      (Pending (sampleRequest kodyEmail "123456")
         (sampleBody kodyEmail "123456"))
      (sampleWorld "123456") in
  verified a = true /\ verified b = false.
Proof.
  destruct (@one_winner_after_consumption sampleImports
              (sampleRequest kodyEmail "123456")
              (sampleRequest kodyEmail "123456")
              (sampleBody kodyEmail "123456") (sampleWorld "123456")
              (samplePayload kodyEmail "123456")
              (mkVerifyData kodyEmail "123456") []
              (sampleRecord "123456") 0 kody [First; First; Second]
              eq_refl eq_refl eq_refl eq_refl eq_refl)
    as (a & b & w' & Hrun & Hb & Ha & _).
  rewrite Hrun. split; [apply Ha; vm_compute; lia | exact Hb].
Defined.

Lemma rejections_identical_witness :
  (@action sampleImports (sampleRequest kodyEmail "123456") emptyWorld).1
  = (@action sampleImports (sampleRequest kodyEmail "123456") staleWorld).1.
Proof.
  refine (proj1 (proj2 (proj2 (proj2
            (@rejections_identical sampleImports
               (sampleRequest kodyEmail "123456")
               (sampleBody kodyEmail "123456") "submit"
               (samplePayload kodyEmail "123456")
               (OK (mkVerifyData kodyEmail "123456")) []
               (mkVerifyData kodyEmail "123456") emptyWorld staleWorld
               (mkVerification "forgot-password" kodyEmail "123456" "SHA1"
                  "654321" 30)
               _ _ _ _ _ _)))));
    reflexivity.
Defined.

Lemma verifier_called_with_record_witness :
  List.filter isVerifyTOTP
    (trace (@action sampleImports (sampleRequest kodyEmail "123456"))
       staleWorld)
  = [VerifyTOTP "123456" "654321" "SHA1" 30 50]
  /\ (@refinement sampleImports (mkVerifyData kodyEmail "123456")
        staleWorld).1
     = Returned [invalidCode].
Proof.
  destruct (@verifier_called_with_record sampleImports
              (sampleRequest kodyEmail "123456")
              (sampleBody kodyEmail "123456") staleWorld "submit"
              (samplePayload kodyEmail "123456")
              (OK (mkVerifyData kodyEmail "123456")) []
              (mkVerifyData kodyEmail "123456")
              (mkVerification "forgot-password" kodyEmail "123456" "SHA1"
                 "654321" 30)
              eq_refl eq_refl eq_refl eq_refl)
    as (Hcall & Hanswer & _).
  split; [exact Hcall | exact Hanswer].
Defined.

(** C5 fails on the code: the schema checks the length only.  The code
    [abcdef] is not 6 digits, yet it is looked up in the table, and where a
    record carries it the verifier is called and the request succeeds. *)
Lemma six_letters_reach_the_verifier :
  sixDigits "abcdef" = false
  /\ trace (@action sampleImports (sampleRequest kodyEmail "abcdef"))
       (sampleWorld "123456")
     = [VerificationFindFirst "forgot-password" kodyEmail "abcdef"]
  /\ List.filter isVerifyTOTP
       (trace (@action sampleImports (sampleRequest kodyEmail "abcdef"))
          (sampleWorld "abcdef"))
     = [VerifyTOTP "abcdef" "abcdef" "SHA1" 30 50]
  /\ verified
       (Finished (@action sampleImports (sampleRequest kodyEmail "abcdef")
                    (sampleWorld "abcdef")).1) = true.
Proof. vm_compute. repeat split. Qed.

Lemma wrong_length_rejected_witness :
  exists submission w',
    @action sampleImports (sampleRequest kodyEmail "12345")
      (sampleWorld "123456")
    = (Returned (json error_status submission 400), w')
    /\ value submission = None
    /\ verification w' = verification (sampleWorld "123456").
Proof.
  destruct (@wrong_length_rejected sampleImports
              (sampleRequest kodyEmail "12345")
              (sampleBody kodyEmail "12345") (sampleWorld "123456")
              (samplePayload kodyEmail "12345") "12345"
              eq_refl eq_refl)
    as (submission & w' & Hrun & Hvalue & _ & Hsame & _).
  - simpl. lia.
  - exists submission, w'. split; [exact Hrun|]. split; assumption.
Defined.

Lemma missing_user_is_fatal_witness :
  (@action sampleImports (sampleRequest kodyEmail "123456") orphanWorld).1
  = Thrown "User not found".
Proof.
  refine (proj1 (@missing_user_is_fatal sampleImports
                   (sampleRequest kodyEmail "123456")
                   (sampleBody kodyEmail "123456") orphanWorld
                   (samplePayload kodyEmail "123456")
                   (mkVerifyData kodyEmail "123456") []
                   (sampleRecord "123456") 0 _ _ _ _ _));
    reflexivity.
Defined.

(** C7 fails on the code: the session is the one the request came with.
    A request that carries a session with a [userId] gets back a session
    with two fields. *)
Lemma session_keeps_other_fields :
  exists session w',
    @action sampleImports (signedInRequest kodyEmail "123456")
      (sampleWorld "123456")
    = (Returned (redirect "/reset-password" session), w')
    /\ session !! "userId" = Some "u1"
    /\ session !! "resetPasswordUsername" = Some "kody"
    /\ size session = 2%nat
    /\ session <> {[ "resetPasswordUsername" := "kody" ]}.
Proof.
  eexists _, _. split; [reflexivity|].
  split; [reflexivity|]. split; [reflexivity|]. split; [reflexivity|].
  intros E. apply (f_equal (fun m : gmap string string => m !! "userId")) in E.
  vm_compute in E. discriminate.
Qed.

Lemma handoff_writes_username_only_witness :
  exists w',
    @action sampleImports (sampleRequest kodyEmail "123456")
      (sampleWorld "123456")
    = (Returned (redirect "/reset-password"
                   {[ "resetPasswordUsername" := "kody" ]}), w').
Proof.
  eexists.
  destruct (@handoff_writes_username_only sampleImports
              (sampleRequest kodyEmail "123456")
              (sampleBody kodyEmail "123456") (sampleWorld "123456")
              (samplePayload kodyEmail "123456")
              (mkVerifyData kodyEmail "123456") []
              (sampleRecord "123456") 0 "/reset-password"
              {[ "resetPasswordUsername" := "kody" ]}
              _ eq_refl eq_refl eq_refl eq_refl eq_refl)
    as (u & _).
  reflexivity.
Defined.

Lemma non_submit_never_consumes_witness :
  verification
    (@loader sampleImports (validateLink kodyEmail "123456")
       (sampleWorld "123456")).2
  = [sampleRecord "123456"].
Proof.
  destruct (@non_submit_never_consumes sampleImports
              (validateLink kodyEmail "123456")
              (searchParams (validateLink kodyEmail "123456"))
              (sampleWorld "123456")
              (mkSubmission "validate/code"
                 (samplePayload kodyEmail "123456") ∅
                 (Some (mkVerifyData kodyEmail "123456")))
              _ eq_refl)
    as (Hrun & Hsame & _).
  - vm_compute. discriminate.
  - change (@loader sampleImports (validateLink kodyEmail "123456")
              (sampleWorld "123456"))
      with (@validate sampleImports (validateLink kodyEmail "123456")
              (searchParams (validateLink kodyEmail "123456"))
              (sampleWorld "123456")).
    rewrite Hrun. exact Hsame.
Defined.

Lemma session_holds_resolved_username_witness :
  exists session,
    (@action sampleImports (sampleRequest kodyEmail "123456")
       (sampleWorld "123456")).1
    = Returned (redirect "/reset-password" session)
    /\ session !! "resetPasswordUsername" = Some "kody".
Proof.
  refine (proj2 (@session_holds_resolved_username sampleImports
                   (sampleRequest kodyEmail "123456")
                   (sampleBody kodyEmail "123456") (sampleWorld "123456")
                   (samplePayload kodyEmail "123456")
                   (mkVerifyData kodyEmail "123456") []
                   (sampleRecord "123456") 0 kody _ _ _ _ _));
    reflexivity.
Defined.

Lemma loader_without_otp_witness :
  trace (@loader sampleImports
           (mkRequest [("usernameOrEmail", kodyEmail)] [] None))
    (sampleWorld "123456") = [].
Proof.
  refine (proj2 (@loader_without_otp sampleImports
                   (mkRequest [("usernameOrEmail", kodyEmail)] [] None)
                   (sampleWorld "123456") _)).
  reflexivity.
Defined.

(** ** Further instances *)

(** The target is the email, the session holds the username. *)
Example email_target_username_session :
  usernameOrEmail (mkVerifyData kodyEmail "123456") <> username kody
  /\ (@action sampleImports (sampleRequest kodyEmail "123456")
        (sampleWorld "123456")).1
     = Returned (redirect "/reset-password"
                   {[ "resetPasswordUsername" := "kody" ]}).
Proof. split; [discriminate | reflexivity]. Qed.

(** A link with the code and no intent parameter is parsed with the intent
    [submit]: the loader then consumes the record and redirects. *)
Example loader_link_consumes :
  let '(o, w') :=
    @loader sampleImports
      (mkRequest [("usernameOrEmail", kodyEmail); ("code", "123456")] [] None)
      (sampleWorld "123456") in
  verified (Finished o) = true /\ verification w' = [].
Proof. vm_compute. split; reflexivity. Qed.

(** A code of the wrong length is still looked up. *)
Example short_code_is_looked_up :
  trace (@action sampleImports (sampleRequest kodyEmail "12345"))
    (sampleWorld "123456")
  = [VerificationFindFirst "forgot-password" kodyEmail "12345"].
Proof. reflexivity. Qed.

(** One request alone takes four steps, and they are [validate]. *)
Example alone_is_validate :
  @steps sampleImports 4
    (Pending (sampleRequest kodyEmail "123456")
       (sampleBody kodyEmail "123456")) (sampleWorld "123456")
  = (Finished (@action sampleImports (sampleRequest kodyEmail "123456")
                 (sampleWorld "123456")).1,
     (@action sampleImports (sampleRequest kodyEmail "123456")
        (sampleWorld "123456")).2).
Proof. apply steps_validate. Qed.

(** * The whole of [validate] *)

Section Coverage.

Context `{Imports}.

(** Every call of [validate] takes one of the eight paths of [Run]. *)
Lemma validate_run request body w :
  Run request body w (validate request body w).1 (validate request body w).2.
Proof.
  destruct (parseEntries body "submit" ∅) as [[i payload]|msg] eqn:Hb.
  2:{ assert (validate request body w = (Thrown msg, w)) as ->.
      { unfold validate, parse, bind, liftOutcome. by rewrite Hb. }
      by constructor. }
  destruct (verifySchema payload) as [r issues] eqn:Hs.
  destruct (parsedData r) as [data|] eqn:Hd.
  2:{ destruct r; try discriminate.
      assert (validate request body w
              = (Returned (answer i (mkSubmission i payload
                                       (formatError issues) None)), w))
        as ->.
      { unfold validate, parse, bind, liftOutcome. rewrite Hb.
        cbv beta iota. unfold refinedSchema. rewrite Hs. cbv beta iota.
        unfold ret, answer. cbn [intent value].
        by destruct (negb (String.eqb i "submit")). }
      by eapply RunInvalid. }
  destruct (List.find (verificationWhere verificationType
                         (usernameOrEmail data) (code data))
              (verification w)) as [v|] eqn:Hf.
  2:{ rewrite (validate_rejects request _ _ _ _ _ _ _ _ Hb Hs Hd
                 (refinement_missing _ _ Hf)).
      by eapply RunMissing. }
  destruct (verifyTOTP (now w) (code data) (secretKey v) (algorithm v)
              (validSeconds v) 50) as [delta|] eqn:Ht.
  2:{ pose proof (refinement_found _ _ _ Hf) as R. rewrite Ht in R.
      rewrite (validate_rejects request _ _ _ _ _ _ _ _ Hb Hs Hd R).
      by eapply RunRefused. }
  destruct r as [d|d|]; simpl in Hd; inversion Hd; subst d.
  - destruct (String.eqb_spec i "submit") as [->|Hi].
    + rewrite (validate_accepts request _ _ _ _ _ _ _ Hb Hs Hf Ht).
      destruct (List.find (userWhere (usernameOrEmail data)) (user w))
        as [u|] eqn:Hu.
      * by eapply RunVerified.
      * by eapply RunOrphan.
    + assert (validate request body w
              = (Returned (json idle (mkSubmission i payload ∅ (Some data))
                             200),
                 logged w [VerificationFindFirst verificationType
                             (usernameOrEmail data) (code data);
                           VerifyTOTP (code data) (secretKey v) (algorithm v)
                             (validSeconds v) 50])) as ->.
      { unfold validate, bind.
        rewrite (parse_accepts _ _ _ _ _ _ _ _ Hb Hs Hf Ht).
        cbn [intent]. by destruct (String.eqb_spec i "submit"). }
      by eapply RunIdle.
  - assert (validate request body w
            = (Returned (answer i (mkSubmission i payload
                                     (formatError issues) None)),
               logged w [VerificationFindFirst verificationType
                           (usernameOrEmail data) (code data);
                         VerifyTOTP (code data) (secretKey v) (algorithm v)
                           (validSeconds v) 50])) as ->.
    { unfold validate, parse, bind, liftOutcome. rewrite Hb.
      cbv beta iota. unfold refinedSchema. rewrite Hs. cbv beta iota.
      unfold bind. rewrite (refinement_found _ _ _ Hf), Ht.
      unfold ret, answer. cbn [intent value]. rewrite app_nil_r.
      by destruct (negb (String.eqb i "submit")). }
    by eapply RunDirty.
Qed.

(** ** The schema *)

(** X1: [verifySchema] accepts a payload exactly when its target is one
    string that passes the email checks or the username checks and its code
    is one string of length 6; the parsed fields are then those two strings
    and there is no issue. *)
Theorem verifySchema_accepts_iff payload data issues :
  verifySchema payload = (OK data, issues) <->
  issues = []
  /\ payload !! forgotPasswordVerificationTargetQueryParam
     = Some (FString (usernameOrEmail data))
  /\ (emailChecks (usernameOrEmail data) = []
      \/ usernameChecks (usernameOrEmail data) = [])
  /\ payload !! forgotPasswordOTPQueryParam = Some (FString (code data))
  /\ String.length (code data) = 6%nat.
Proof.
  split.
  - intros Hs. destruct (verifySchema_OK _ _ _ Hs) as (Hi & Ht & Hc & Hl).
    repeat split; try assumption.
    revert Hs. unfold verifySchema, zUnion, emailSchema, usernameSchema.
    rewrite Ht. unfold zString at 1 2.
    destruct (emailChecks (usernameOrEmail data)); [by left|].
    destruct (usernameChecks (usernameOrEmail data)); [by right|].
    by destruct (zString _ _) as [[?|?|] ?].
  - intros (-> & Ht & Hchecks & Hc & Hl).
    unfold verifySchema, zUnion, emailSchema, usernameSchema, zString.
    rewrite Ht, Hc. unfold zMin, zMax. rewrite Hl. simpl.
    destruct data as [t c]. simpl in *.
    destruct Hchecks as [-> | Hu].
    + by destruct (usernameChecks t).
    + rewrite Hu. by destruct (emailChecks t).
Qed.

(** An object that is not [OK] comes with at least one issue. *)
Lemma verifySchema_issues payload r issues :
  verifySchema payload = (r, issues) ->
  issues = [] -> exists data, r = OK data.
Proof.
  unfold verifySchema, zUnion, emailSchema, usernameSchema, zString.
  destruct (payload !! forgotPasswordVerificationTargetQueryParam)
    as [[t|?]|]; destruct (payload !! forgotPasswordOTPQueryParam)
    as [[c|?]|]; simpl;
    repeat match goal with
      | |- context [match ?l with [] => _ | _ :: _ => _ end] =>
          destruct l eqn:?; simpl
      end; intros E; inversion E; subst; simpl; intros Hnil;
    try discriminate; eauto.
  all: apply app_eq_nil in Hnil as [? ?]; discriminate.
Qed.

Lemma formatError_empty issues : formatError issues = ∅ -> issues = [].
Proof.
  destruct issues as [|i issues] using rev_ind; [done|].
  unfold formatError. rewrite foldl_app. simpl. unfold addError at 1.
  intros E. by apply insert_non_empty in E.
Qed.

(** ** What a submission holds *)

(** X2: the submission [parse] returns has a value exactly when its error
    object is empty: an accepted submission carries no message and a
    rejected one carries at least one. *)
Theorem parse_value_iff_no_error body w submission w' :
  parse body w = (Returned submission, w') ->
  (is_Some (value submission) <-> error submission = ∅).
Proof.
  unfold parse, bind, liftOutcome.
  destruct (parseEntries body "submit" ∅) as [[i payload]|msg];
    [|discriminate].
  unfold refinedSchema.
  destruct (verifySchema payload) as [r issues] eqn:Hs.
  assert (forall added, formatError (issues ++ added) = ∅ ->
                        exists data, r = OK data) as Hok.
  { intros added E. apply formatError_empty, app_eq_nil in E as [E _].
    by apply (verifySchema_issues _ _ _ Hs). }
  destruct r as [data|data|]; cbv beta iota.
  - unfold bind.
    destruct (refinement_reads data w) as (added & es & -> & _).
    destruct added as [|a added]; unfold ret; intros E; inversion E; simpl.
    + split; [done | by eauto].
    + split; [by intros [? ?]|].
      intros E'. apply formatError_empty in E'.
      by apply app_eq_nil in E' as [_ ?].
  - unfold bind.
    destruct (refinement_reads data w) as (added & es & -> & _).
    unfold ret; intros E; inversion E; simpl.
    split; [by intros [? ?]|]. intros E'.
    by destruct (Hok _ E').
  - unfold ret; intros E; inversion E; simpl.
    split; [by intros [? ?]|]. intros E'.
    specialize (Hok []). rewrite app_nil_r in Hok. by destruct (Hok E').
Qed.

(** ** Reading an outcome backwards *)

Lemma run_outcome request body w o w' :
  validate request body w = (o, w') -> Run request body w o w'.
Proof. intros E. pose proof (validate_run request body w) as R. by rewrite E in R. Qed.

Ltac run_cases E :=
  destruct E as
    [ msg Hb
    | i payload issues Hb Hs
    | i payload r issues data Hb Hs Hd Hf
    | i payload r issues data v Hb Hs Hd Hf Ht
    | i payload issues data v delta Hb Hs Hf Ht
    | i payload issues data v delta Hb Hs Hf Ht Hi
    | payload issues data v delta Hb Hs Hf Ht Hu
    | payload issues data v delta u Hb Hs Hf Ht Hu ].

Lemma answer_json i submission status submission' http :
  answer i submission = json status submission' http ->
  submission' = submission
  /\ ((status = idle /\ http = 200 /\ i <> "submit")
      \/ (status = error_status /\ http = 400 /\ i = "submit")).
Proof.
  unfold answer. destruct (String.eqb_spec i "submit"); simpl;
    intros E; inversion E; subst; auto.
Qed.

Lemma answer_not_redirect i submission url session :
  answer i submission <> redirect url session.
Proof. unfold answer. by destruct (negb (String.eqb i "submit")). Qed.

Lemma where_true ty target c v :
  verificationWhere ty target c v = true ->
  type v = ty /\ verificationTarget v = target /\ otp v = c.
Proof.
  unfold verificationWhere. intros E.
  apply andb_prop in E as [E E3]. apply andb_prop in E as [E1 E2].
  by rewrite !String.eqb_eq in *.
Qed.

Lemma sublist_delete {A : Type} (f : A -> bool) (l : list A) :
  sublist (List.filter f l) l.
Proof.
  induction l as [|a l IH]; simpl; [constructor|].
  destruct (f a); by constructor.
Qed.

Lemma deleted_matches {A : Type} (f : A -> bool) (l : list A) (x : A) :
  x ∈ l -> x ∉ List.filter (fun y => negb (f y)) l -> f x = true.
Proof.
  intros Hin Hout. destruct (f x) eqn:E; [done|].
  exfalso. apply Hout, list_elem_of_In, filter_In.
  split; [by apply list_elem_of_In | by rewrite E].
Qed.

(** X3: [validate] answers with a redirect only to [/reset-password], and
    only when the intent is [submit], the schema accepted the payload, the
    lookup found a record, the verifier accepted the code with that
    record's key, algorithm and period and the window 50, and a user has
    the target as email or username; the session of the redirect is the
    request's session with that user's username written. *)
Theorem redirect_only_after_verification
    request body w url session w' :
  validate request body w = (Returned (redirect url session), w') ->
  url = "/reset-password"
  /\ exists payload data v delta u,
       parseEntries body "submit" ∅ = Returned ("submit", payload)
       /\ verifySchema payload = (OK data, [])
       /\ List.find (verificationWhere verificationType
                       (usernameOrEmail data) (code data))
            (verification w) = Some v
       /\ verifyTOTP (now w) (code data) (secretKey v) (algorithm v)
            (validSeconds v) 50 = Some delta
       /\ List.find (userWhere (usernameOrEmail data)) (user w) = Some u
       /\ session = <[resetPasswordUsernameSessionKey := username u]>
                      (getSession (cookie request)).
Proof.
  intros E. apply run_outcome in E.
  remember (Returned (redirect url session)) as o eqn:Ho.
  run_cases E; try discriminate;
    try (inversion Ho as [Ha]; by apply answer_not_redirect in Ha).
  unfold accepted in Ho. inversion Ho; subst. split; [reflexivity|].
  destruct (verifySchema_OK _ _ _ Hs) as (-> & _).
  by exists payload, data, v, delta, u.
Qed.

Lemma trace_run request body w o w' :
  validate request body w = (o, w') ->
  trace (validate request body) w = drop (length (log w)) (log w').
Proof. intros E. unfold trace. by rewrite E. Qed.

Ltac trace_simpl :=
  cbn [logged consumed log verification user now];
  rewrite ?drop_app_length, ?drop_all.

(** X4: a [json] answer of [validate] means nothing happened: both tables
    are as before and there was no [deleteMany], no user lookup and no
    session call.  The answer is idle with status 200 for an intent other
    than [submit], and an error with status 400 and no value for the intent
    [submit]. *)
Theorem json_answer_changes_nothing
    request body w status submission http w' :
  validate request body w = (Returned (json status submission http), w') ->
  verification w' = verification w
  /\ user w' = user w
  /\ List.filter isDeleteMany (trace (validate request body) w) = []
  /\ List.filter isUserFindFirst (trace (validate request body) w) = []
  /\ List.filter isSession (trace (validate request body) w) = []
  /\ ((status = idle /\ http = 200 /\ intent submission <> "submit")
      \/ (status = error_status /\ http = 400
          /\ intent submission = "submit" /\ value submission = None)).
Proof.
  intros E. rewrite (trace_run _ _ _ _ _ E). apply run_outcome in E.
  remember (Returned (json status submission http)) as o eqn:Ho.
  run_cases E; try discriminate; trace_simpl;
    try (unfold accepted in Ho; discriminate);
    try (inversion Ho as [Ha]; apply answer_json in Ha as (-> & Hst);
         repeat split; try reflexivity; simpl; tauto).
  inversion Ho; subst. repeat split; try reflexivity. left. auto.
Qed.

(** X5: [validate] never adds or changes a row.  The user table and the
    clock are as before, the verification table is the old one with rows
    left out, and a row is left out only when its type is the route's
    verification type, the intent is [submit], and its target and code are
    the ones submitted. *)
Theorem validate_only_deletes_submitted request body w :
  user (validate request body w).2 = user w
  /\ now (validate request body w).2 = now w
  /\ sublist (verification (validate request body w).2) (verification w)
  /\ forall v,
       v ∈ verification w ->
       v ∉ verification (validate request body w).2 ->
       type v = verificationType
       /\ exists entries,
            parseEntries body "submit" ∅ = Returned ("submit", entries)
            /\ entries !! forgotPasswordVerificationTargetQueryParam
               = Some (FString (verificationTarget v))
            /\ entries !! forgotPasswordOTPQueryParam
               = Some (FString (otp v)).
Proof.
  destruct (validate request body w) as [o w'] eqn:E. apply run_outcome in E.
  cbn [snd].
  run_cases E; cbn [logged consumed verification user now];
    (split; [reflexivity|]); (split; [reflexivity|]);
    try (split; [reflexivity | by intros ? ? ?]).
  all: split; [apply sublist_delete|].
  all: intros x Hin Hout.
  all: apply deleted_matches in Hout; [|exact Hin].
  all: apply where_true in Hout as (Hty & Htarget & Hotp).
  all: destruct (verifySchema_OK _ _ _ Hs) as (_ & Hpt & Hpc & _).
  all: split; [exact Hty|]. all: exists payload.
  all: by rewrite Htarget, Hotp.
Qed.

(** X7: the calls of one [validate] are a beginning of one fixed sequence:
    the lookup, the verifier with the window 50, [deleteMany], the user
    lookup, the session write and the commit, the first four for one target
    and one code.  So each call is made at most once, and none before the
    ones in front of it. *)
Theorem calls_in_order request body w :
  exists target c key alg period count name session,
    trace (validate request body) w `prefix_of`
      [VerificationFindFirst verificationType target c;
       VerifyTOTP c key alg period 50;
       VerificationDeleteMany verificationType target c count;
       UserFindFirst target;
       SessionSet resetPasswordUsernameSessionKey name;
       CommitSession session].
Proof.
  destruct (validate request body w) as [o w'] eqn:E.
  rewrite (trace_run _ _ _ _ _ E). apply run_outcome in E.
  run_cases E; trace_simpl;
    try (exists "", "", "", "", 0, 0%nat, "", ∅; apply prefix_nil).
  - exists (usernameOrEmail data), (code data), "", "", 0, 0%nat, "", ∅.
    by eexists.
  - exists (usernameOrEmail data), (code data), (secretKey v), (algorithm v),
      (validSeconds v), 0%nat, "", ∅.
    by eexists.
  - exists (usernameOrEmail data), (code data), (secretKey v), (algorithm v),
      (validSeconds v), 0%nat, "", ∅.
    by eexists.
  - exists (usernameOrEmail data), (code data), (secretKey v), (algorithm v),
      (validSeconds v), 0%nat, "", ∅.
    by eexists.
  - exists (usernameOrEmail data), (code data), (secretKey v), (algorithm v),
      (validSeconds v),
      (pending verificationType (usernameOrEmail data) (code data) w), "", ∅.
    by eexists.
  - exists (usernameOrEmail data), (code data), (secretKey v), (algorithm v),
      (validSeconds v),
      (pending verificationType (usernameOrEmail data) (code data) w),
      (username u),
      (<[resetPasswordUsernameSessionKey := username u]>
         (getSession (cookie request))).
    by exists [].
Qed.

(** ** Who can tell what *)

Lemma run_json_same request body w1 w2 o1 o2 w1' w2' :
  verification w1 = verification w2 ->
  now w1 = now w2 ->
  Run request body w1 o1 w1' ->
  Run request body w2 o2 w2' ->
  (exists status submission http, o1 = Returned (json status submission http))
  -> o2 = o1.
Proof.
  intros Hv Hn R1 R2 (status & submission & http & Ho).
  destruct R1; destruct R2; rewrite ?Hv, ?Hn in *;
    repeat match goal with
      | E1 : ?x = _, E2 : ?x = _ |- _ => rewrite E1 in E2; simplify_eq /=
      end;
    try reflexivity; try congruence;
    try (unfold accepted in Ho; discriminate).
Qed.

(** X8: a [json] answer does not depend on the user table.  Two worlds
    with the same verification table and the same time give the same
    [json] answer, whoever is registered in them. *)
Theorem rejection_ignores_users
    request body w1 w2 status submission http :
  verification w1 = verification w2 ->
  now w1 = now w2 ->
  (validate request body w1).1 = Returned (json status submission http) ->
  (validate request body w2).1 = Returned (json status submission http).
Proof.
  intros Hv Hn E. rewrite <- E.
  eapply (run_json_same request body w1 w2 _ _ _ _ Hv Hn
            (validate_run request body w1) (validate_run request body w2)).
  by eexists _, _, _.
Qed.

(** ** Deleting twice *)

Lemma filter_twice {A : Type} (f : A -> bool) (l : list A) :
  List.filter f (List.filter f l) = List.filter f l.
Proof.
  induction l as [|a l IH]; simpl; [done|].
  destruct (f a) eqn:E; simpl; [by rewrite E, IH | exact IH].
Qed.

(** X9: [deleteMany] a second time for the same submission finds nothing:
    it logs the count 0 and leaves the table as the first call left it. *)
Theorem consume_twice data w :
  let w1 := (consume data w).2 in
  let w2 := (consume data w1).2 in
  verification w2 = verification w1
  /\ log w2 = log w1 ++ [VerificationDeleteMany verificationType
                           (usernameOrEmail data) (code data) 0].
Proof.
  unfold consume, verification_deleteMany, bind, ret. simpl.
  by rewrite filter_twice, filter_after_delete.
Qed.

(** ** Links *)

Lemma parseEntries_keeps_intent body i entries :
  INTENT ∉ body.*1 ->
  exists entries', parseEntries body i entries = Returned (i, entries').
Proof.
  revert entries. induction body as [|[name val] body IH]; intros entries Hno.
  { by eexists. }
  simpl in *. apply not_elem_of_cons in Hno as [Hname Hno].
  destruct (String.eqb_spec name INTENT); [done|]. by apply IH.
Qed.

(** X10: a link that has the code and no intent parameter is a
    submission.  The loader handles it as the action handles a form with
    the same entries, and it never answers idle: it rejects with 400,
    redirects, or throws. *)
Theorem loader_link_is_submit request w :
  has (searchParams request) forgotPasswordOTPQueryParam = true ->
  INTENT ∉ (searchParams request).*1 ->
  loader request w
  = action (mkRequest [] (searchParams request) (cookie request)) w
  /\ forall submission http,
       (loader request w).1 <> Returned (json idle submission http).
Proof.
  intros Hhas Hno.
  assert (loader request w = validate request (searchParams request) w)
    as Hl by (unfold loader; by rewrite Hhas).
  split; [by rewrite Hl|].
  intros submission http E. rewrite Hl in E.
  destruct (parseEntries_keeps_intent _ "submit" ∅ Hno) as [entries He].
  pose proof (validate_run request (searchParams request) w) as R.
  rewrite E in R.
  remember (Returned (json idle submission http)) as o eqn:Ho.
  run_cases R; try discriminate;
    try (unfold accepted in Ho; discriminate);
    rewrite He in Hb; inversion Hb; subst;
    try (inversion Ho as [Ha]; apply answer_json in Ha as (_ & Hst);
         destruct Hst as [(_ & _ & ?) | (? & _)]; done).
  done.
Qed.

(** ** The idle answer of the loader *)

Lemma fromEntries_lookup params name :
  fromEntries params !! name = FString <$> last (valuesOf name params).
Proof.
  unfold fromEntries, valuesOf.
  induction params as [|[k x] params IH] using rev_ind; [done|].
  rewrite foldl_app, List.filter_app, fmap_app. cbn [foldl List.filter fst snd].
  destruct (String.eqb_spec k name) as [->|Hne].
  - rewrite lookup_insert_eq. simpl. by rewrite last_snoc.
  - rewrite lookup_insert_ne by done. simpl. by rewrite app_nil_r.
Qed.

Lemma valuesOf_absent params name :
  has params name = false -> valuesOf name params = [].
Proof.
  unfold has, valuesOf. intros Hhas. apply bool_decide_eq_false in Hhas.
  induction params as [|[k x] params IH]; [done|].
  simpl in *. apply not_elem_of_cons in Hhas as [Hne Hhas].
  destruct (String.eqb_spec k name); [congruence | by apply IH].
Qed.

(** X11: the payload of the loader's idle answer repeats the URL: for
    each name it holds the last value the URL gives for it, as a string,
    and nothing for a name the URL does not have; it has no code. *)
Theorem loader_idle_payload request w :
  has (searchParams request) forgotPasswordOTPQueryParam = false ->
  exists submission,
    loader request w = (Returned (json idle submission 200), w)
    /\ payload submission !! forgotPasswordOTPQueryParam = None
    /\ forall name,
         payload submission !! name
         = FString <$> last (valuesOf name (searchParams request)).
Proof.
  intros Hhas. unfold loader. rewrite Hhas. simpl. eexists.
  split; [reflexivity|]. simpl. split.
  - by rewrite fromEntries_lookup, (valuesOf_absent _ _ Hhas).
  - apply fromEntries_lookup.
Qed.

(** ** The browser and the server *)

(** X12: what the server accepts, the browser accepts.  When [parse]
    returns a submission with a value, [onValidate] on the same entries
    returns the same intent, payload and value, with no error. *)
Theorem server_accepts_browser_accepts body w submission w' data :
  parse body w = (Returned submission, w') ->
  value submission = Some data ->
  onValidate body
  = Returned (mkSubmission (intent submission) (payload submission) ∅
                (Some data)).
Proof.
  unfold parse, onValidate, bind, liftOutcome.
  destruct (parseEntries body "submit" ∅) as [[i entries]|msg];
    [|discriminate].
  unfold refinedSchema.
  destruct (verifySchema entries) as [[d|d|] issues]; cbv beta iota.
  - unfold bind. destruct (refinement_reads d w) as (added & es & -> & _).
    destruct added; unfold ret; intros E; inversion E; subst; simpl;
      intros Hv; by inversion Hv.
  - unfold bind. destruct (refinement_reads d w) as (added & es & -> & _).
    unfold ret; intros E; inversion E; subst; simpl. discriminate.
  - unfold ret; intros E; inversion E; subst; simpl. discriminate.
Qed.

(** X13: what the browser rejects, the server rejects without touching
    anything.  When [onValidate] returns a submission with no value,
    [validate] on the same entries answers with a [json] that has no value,
    and both tables are as before. *)
Theorem browser_rejection_is_final request body w rejection :
  onValidate body = Returned rejection ->
  value rejection = None ->
  exists status submission http w',
    validate request body w = (Returned (json status submission http), w')
    /\ value submission = None
    /\ verification w' = verification w
    /\ user w' = user w.
Proof.
  unfold onValidate. intros Hc Hnone.
  destruct (parseEntries body "submit" ∅) as [[i0 entries]|?] eqn:He;
    [|discriminate].
  destruct (verifySchema entries) as [r0 issues0] eqn:Hs0.
  assert (forall d, r0 <> OK d) as Hno.
  { intros d ->. inversion Hc; subst. discriminate. }
  destruct (validate request body w) as [o w'] eqn:E.
  apply run_outcome in E.
  run_cases E; rewrite He in Hb; inversion Hb; subst;
    rewrite Hs0 in Hs; inversion Hs; subst;
    try (by destruct (Hno data)).
  all: unfold answer; destruct (negb (String.eqb i "submit"));
    by eexists _, _, _, _.
Qed.

(** ** Any schedule *)

Lemma step_keeps a w :
  user (step a w).2 = user w
  /\ now (step a w).2 = now w
  /\ sublist (verification (step a w).2) (verification w)
  /\ log w `prefix_of` log (step a w).2.
Proof.
  destruct a as [request body|request data|request data|request u|o].
  - unfold step.
    destruct (parse_reads body w) as (o & es & -> & _).
    assert (forall a' : Attempt,
              user (a', logged w es).2 = user w
              /\ now (a', logged w es).2 = now w
              /\ sublist (verification (a', logged w es).2) (verification w)
              /\ log w `prefix_of` log (a', logged w es).2) as Hany.
    { intros a'. simpl. repeat split; try done. by exists es. }
    destruct o as [submission|msg]; [|apply Hany].
    destruct (negb (String.eqb (intent submission) "submit")); [apply Hany|].
    destruct (value submission); apply Hany.
  - unfold step, consume, verification_deleteMany, bind, ret. simpl.
    repeat split; try done; [apply sublist_delete | by eexists].
  - unfold step, resolveUser, user_findFirst, bind, emit, ret, throw. simpl.
    destruct (List.find _ (user w)); simpl; repeat split; try done;
      by eexists.
  - unfold step, handoff, sessionSet, commitSession, bind, emit, ret. simpl.
    repeat split; try done. rewrite <- app_assoc. by eexists.
  - simpl. repeat split; done.
Qed.

(** X14: however two requests are interleaved, and whatever they submit,
    no row is added or changed: the user table and the clock stay as they
    were, the verification table only loses rows, and the log only grows. *)
Theorem interleave_only_deletes schedule a b w :
  user (interleave schedule a b w).2 = user w
  /\ now (interleave schedule a b w).2 = now w
  /\ sublist (verification (interleave schedule a b w).2) (verification w)
  /\ log w `prefix_of` log (interleave schedule a b w).2.
Proof.
  revert a b w. induction schedule as [|t schedule IH]; intros a b w.
  { simpl. repeat split; done. }
  destruct t; simpl.
  - pose proof (step_keeps a w) as (Hu & Hn & Hv & Hl).
    destruct (step a w) as [a' w1]. simpl in *.
    destruct (IH a' b w1) as (Hu' & Hn' & Hv' & Hl').
    repeat split; [congruence | congruence | by etrans | by etrans].
  - pose proof (step_keeps b w) as (Hu & Hn & Hv & Hl).
    destruct (step b w) as [b' w1]. simpl in *.
    destruct (IH a b' w1) as (Hu' & Hn' & Hv' & Hl').
    repeat split; [congruence | congruence | by etrans | by etrans].
Qed.

(** ** When the table is read *)

Lemma verifySchema_data entries r issues data :
  verifySchema entries = (r, issues) ->
  parsedData r = Some data <->
  entries !! forgotPasswordVerificationTargetQueryParam
  = Some (FString (usernameOrEmail data))
  /\ entries !! forgotPasswordOTPQueryParam = Some (FString (code data)).
Proof.
  unfold verifySchema, zUnion, emailSchema, usernameSchema, zString.
  destruct data as [t0 c0].
  destruct (entries !! forgotPasswordVerificationTargetQueryParam)
    as [[t|?]|]; destruct (entries !! forgotPasswordOTPQueryParam)
    as [[c|?]|]; simpl;
    repeat match goal with
      | |- context [match ?l with [] => _ | _ :: _ => _ end] =>
          destruct l eqn:?; simpl
      end; intros E; inversion E; subst; simpl;
    split; try (intros [? ?]); try intros ?; simplify_eq; done.
Qed.

(** X15: the table is read exactly when conform returns and both fields
    are single strings, whatever their format and length: the first call
    of [validate] is then the lookup for the route's verification type and
    those two strings, and otherwise [validate] makes no lookup for them. *)
Theorem lookup_iff_both_fields request body w t c :
  (exists rest,
     trace (validate request body) w
     = VerificationFindFirst verificationType t c :: rest)
  <->
  (exists i entries,
     parseEntries body "submit" ∅ = Returned (i, entries)
     /\ entries !! forgotPasswordVerificationTargetQueryParam
        = Some (FString t)
     /\ entries !! forgotPasswordOTPQueryParam = Some (FString c)).
Proof.
  destruct (validate request body w) as [o w'] eqn:E.
  rewrite (trace_run _ _ _ _ _ E). apply run_outcome in E.
  split.
  - intros [rest Ht0].
    run_cases E; revert Ht0; trace_simpl; intros Ht0; try discriminate;
      inversion Ht0; subst; eexists _, payload;
      (split; [eassumption|]);
      first [ by apply (verifySchema_data _ _ _ data Hs)
            | by apply (verifySchema_data _ _ _ data Hs eq_refl) ].
  - intros (i0 & entries & He & Ht0 & Hc0).
    destruct (verifySchema entries) as [r0 issues0] eqn:Hs0.
    assert (parsedData r0 = Some (mkVerifyData t c)) as Hd0.
    { by apply (verifySchema_data _ _ _ (mkVerifyData t c) Hs0). }
    run_cases E; rewrite He in Hb; inversion Hb; subst;
      rewrite Hs0 in Hs; inversion Hs; subst; simpl in Hd0;
      try discriminate;
      try (rewrite Hd0 in Hd); simplify_eq;
      trace_simpl; by eexists.
Qed.

End Coverage.

(** ** The sample setting, again *)

Lemma parse_value_iff_no_error_witness :
  is_Some (Some (mkVerifyData kodyEmail "123456"))
  <-> (∅ : gmap string (list string)) = ∅.
Proof.
  refine (@parse_value_iff_no_error sampleImports
            (sampleBody kodyEmail "123456") (sampleWorld "123456")
            (mkSubmission "submit" (samplePayload kodyEmail "123456") ∅
               (Some (mkVerifyData kodyEmail "123456")))
            (@parse sampleImports (sampleBody kodyEmail "123456")
               (sampleWorld "123456")).2 _).
  reflexivity.
Defined.

Lemma redirect_only_after_verification_witness :
  exists data v delta,
    List.find (verificationWhere "forgot-password" (usernameOrEmail data)
                 (code data)) [sampleRecord "123456"] = Some v
    /\ sampleVerifyTOTP 1000 (code data) (secretKey v) (algorithm v)
         (validSeconds v) 50 = Some delta.
Proof.
  destruct (@redirect_only_after_verification sampleImports
              (sampleRequest kodyEmail "123456")
              (sampleBody kodyEmail "123456") (sampleWorld "123456")
              "/reset-password" {[ "resetPasswordUsername" := "kody" ]}
              (@action sampleImports (sampleRequest kodyEmail "123456")
                 (sampleWorld "123456")).2 eq_refl)
    as (_ & entries & data & v & delta & u & _ & _ & Hf & Ht & _).
  exists data, v, delta. split; [exact Hf | exact Ht].
Defined.

Lemma json_answer_changes_nothing_witness :
  verification
    (@action sampleImports (sampleRequest kodyEmail "000000")
       (sampleWorld "123456")).2
  = [sampleRecord "123456"].
Proof.
  refine (proj1 (@json_answer_changes_nothing sampleImports
                   (sampleRequest kodyEmail "000000")
                   (sampleBody kodyEmail "000000") (sampleWorld "123456")
                   error_status
                   (mkSubmission "submit" (samplePayload kodyEmail "000000")
                      (formatError [invalidCode]) None)
                   400 _ _)).
  reflexivity.
Defined.

Lemma rejection_ignores_users_witness :
  (@action sampleImports (sampleRequest kodyEmail "123456")
     (mkWorld [] [] 1000 [])).1
  = Returned (json error_status
                (mkSubmission "submit" (samplePayload kodyEmail "123456")
                   (formatError [invalidCode]) None) 400).
Proof.
  refine (@rejection_ignores_users sampleImports
            (sampleRequest kodyEmail "123456")
            (sampleBody kodyEmail "123456") emptyWorld
            (mkWorld [] [] 1000 []) _ _ _ _ _ _);
    reflexivity.
Defined.

Lemma loader_link_is_submit_witness :
  @loader sampleImports
    (mkRequest (sampleBody kodyEmail "123456") [] None) (sampleWorld "123456")
  = @action sampleImports (sampleRequest kodyEmail "123456")
      (sampleWorld "123456").
Proof.
  refine (proj1 (@loader_link_is_submit sampleImports
                   (mkRequest (sampleBody kodyEmail "123456") [] None)
                   (sampleWorld "123456") _ _)).
  - reflexivity.
  - vm_compute. intros Hin.
    repeat (apply elem_of_cons in Hin as [Hin|Hin]; [discriminate|]).
    by apply elem_of_nil in Hin.
Defined.

Lemma loader_idle_payload_witness :
  exists submission,
    @loader sampleImports
      (mkRequest [("usernameOrEmail", "a"); ("usernameOrEmail", kodyEmail)]
         [] None) emptyWorld
    = (Returned (json idle submission 200), emptyWorld)
    /\ payload submission !! "usernameOrEmail" = Some (FString kodyEmail).
Proof.
  destruct (@loader_idle_payload sampleImports
              (mkRequest
                 [("usernameOrEmail", "a"); ("usernameOrEmail", kodyEmail)]
                 [] None) emptyWorld eq_refl)
    as (submission & Hrun & _ & Hlast).
  exists submission. split; [exact Hrun | exact (Hlast "usernameOrEmail")].
Defined.

Lemma server_accepts_browser_accepts_witness :
  @onValidate sampleImports (sampleBody kodyEmail "123456")
  = Returned (mkSubmission "submit" (samplePayload kodyEmail "123456") ∅
                (Some (mkVerifyData kodyEmail "123456"))).
Proof.
  refine (@server_accepts_browser_accepts sampleImports
            (sampleBody kodyEmail "123456") (sampleWorld "123456")
            (mkSubmission "submit" (samplePayload kodyEmail "123456") ∅
               (Some (mkVerifyData kodyEmail "123456")))
            (@parse sampleImports (sampleBody kodyEmail "123456")
               (sampleWorld "123456")).2
            (mkVerifyData kodyEmail "123456") _ _);
    reflexivity.
Defined.

Lemma browser_rejection_is_final_witness :
  exists status submission http w',
    @action sampleImports (sampleRequest "ko" "123456") (sampleWorld "123456")
    = (Returned (json status submission http), w')
    /\ value submission = None
    /\ verification w' = [sampleRecord "123456"].
Proof.
  destruct (@browser_rejection_is_final sampleImports
              (sampleRequest "ko" "123456") (sampleBody "ko" "123456")
              (sampleWorld "123456")
              (mkSubmission "submit" (samplePayload "ko" "123456")
                 (formatFirstError
                    [mkIssue ["usernameOrEmail"] invalid_string
                       "Email is invalid"]) None)
              eq_refl eq_refl)
    as (status & submission & http & w' & Hrun & Hnone & Hsame & _).
  by exists status, submission, http, w'.
Defined.

(** A target that is neither an email nor a username, with the right code:
    the browser and the server both refuse, and the record stays. *)
Example malformed_target_keeps_record :
  let '(o, w') :=
    @action sampleImports (sampleRequest "ko" "123456")
      (mkWorld [mkVerification "forgot-password" "ko" "123456" "SHA1"
                  "123456" 30] [kody] 1000 []) in
  verified (Finished o) = false /\ length (verification w') = 1%nat.
Proof. vm_compute. split; reflexivity. Qed.

(** At time 1000 with steps of 30 seconds the current step is 33.  With
    the window 50 the verifier of the spec takes the code of step 83, which
    is 50 steps and 1500 seconds ahead, and refuses the code of step 84. *)
Example window_counts_steps :
  specVerify (fun _ => true) sampleGenerate 1000 "483000" "ABC123" "SHA1"
    30 50 = Matches true
  /\ specVerify (fun _ => true) sampleGenerate 1000 "484000" "ABC123" "SHA1"
       30 50 = Matches false
  /\ specVerify (fun _ => true) sampleGenerate 1000 "483000" "ABC123" "SHA1"
       0 50 = ConfigurationError.
Proof. vm_compute. repeat split. Qed.
